(** * pyface: toolkit selection, row-info data model, value types, colour dialog

    A shallow embedding of the Python sources

      - [pyface/qt/__init__.py]                             (module [QtSelector])
      - [pyface/data_view/data_models/column_data_model.py] (modules
        [ColumnModel], [RowInfoOver] and [RowObjects])
      - [pyface/data_view/abstract_value_type.py]           (module [ValueType])
      - [pyface/color_dialog.py]                            (module [ColorDialogs])

    Python statements are embedded as functions on an explicit state that
    yield a completion (normal, [break], [continue] or a raised exception);
    Python calls that return a value are embedded in a state-and-exception
    monad over an object store. *)

From Stdlib Require Import ZArith Ascii String.
From stdpp Require Import gmap strings list pretty.

Open Scope string_scope.
Open Scope Z_scope.

(** ** Python basics *)

Module Py.

(** The exception classes that the embedded sources raise or let through. *)
Inductive exn : Type :=
| ImportError (msg : string)
| RuntimeError (msg : string)
| IndexError (msg : string)
| TypeError (msg : string)
| AttributeError (msg : string)
| DataViewSetError (msg : string)
| ValueError (msg : string)
| TraitError (msg : string).

(** Outcome of evaluating an expression or of a call. *)
Inductive result (A : Type) : Type :=
| Ok (a : A)
| Raise (e : exn).
Arguments Ok {A} a.
Arguments Raise {A} e.

Global Instance result_ret : MRet result := λ A a, Ok a.

Global Instance result_bind : MBind result := λ A B f r,
  match r with
  | Ok a => f a
  | Raise e => Raise e
  end.

(** How a statement completes. *)
Inductive completion : Type :=
| Normal
| Break
| Continue
| Raised (e : exn).

Section Statements.
Context {S : Type}.

Definition stmt : Type := S → completion * S.

Definition pass : stmt := λ s, (Normal, s).
Definition break : stmt := λ s, (Break, s).
Definition continue : stmt := λ s, (Continue, s).
Definition raise (e : exn) : stmt := λ s, (Raised e, s).

(** [s1; s2] *)
Definition seq (s1 s2 : stmt) : stmt := λ s,
  match s1 s with
  | (Normal, s') => s2 s'
  | other => other
  end.

(** [if cond: s1 else: s2], the condition reading the state. *)
Definition if_ (cond : S → bool) (s1 s2 : stmt) : stmt := λ s,
  if cond s then s1 s else s2 s.

(** [for x in items: body(x) else: orelse].  [break] leaves the loop and
    skips the [else] clause, [continue] goes on with the next item, the
    [else] clause runs when the items are exhausted. *)
Fixpoint for_else {X : Type} (items : list X) (body : X → stmt)
    (orelse : stmt) : stmt := λ s,
  match items with
  | [] => orelse s
  | x :: items' =>
      match body x s with
      | (Normal, s') | (Continue, s') => for_else items' body orelse s'
      | (Break, s') => (Normal, s')
      | (Raised e, s') => (Raised e, s')
      end
  end.

(** [for x in items: body(x)] *)
Definition for_ {X : Type} (items : list X) (body : X → stmt) : stmt :=
  for_else items body pass.

(** [try: body except E: handler else: orelse].  The [else] clause runs
    only when control flows off the end of [body]: a [break] or
    [continue] inside [body] leaves the whole statement. *)
Definition try_except_else (body : stmt) (catches : exn → bool)
    (handler orelse : stmt) : stmt := λ s,
  match body s with
  | (Normal, s') => orelse s'
  | (Raised e, s') => if catches e then handler s' else (Raised e, s')
  | other => other
  end.
End Statements.
Arguments stmt S : clear implicits.

Definition is_ImportError (e : exn) : bool :=
  match e with ImportError _ => true | _ => false end.

(** Calls: a function body reads and updates a store [S] and either
    returns a value or raises; updates made before a raise persist. *)
Definition M (S A : Type) : Type := S → result A * S.

Global Instance M_ret {S : Type} : MRet (M S) := λ A a s, (Ok a, s).

Global Instance M_bind {S : Type} : MBind (M S) := λ A B f m s,
  match m s with
  | (Ok a, s') => f a s'
  | (Raise e, s') => (Raise e, s')
  end.

Definition throw {S A : Type} (e : exn) : M S A := λ s, (Raise e, s).

(** An expression that reads the store, and one that does not need it. *)
Definition reads {S A : Type} (f : S → A) : M S A := λ s, (Ok (f s), s).
Definition lift {S A : Type} (r : result A) : M S A := λ s, (r, s).

(** Truth value of a string: only the empty string is false. *)
Definition truthy (s : string) : bool :=
  match s with EmptyString => false | String _ _ => true end.

(** [l[i]] on a Python list: a negative index counts from the end, an index
    outside [-len(l), len(l)) raises IndexError. *)
Definition getitem {A : Type} (l : list A) (i : Z) : result A :=
  let n := Z.of_nat (length l) in
  let j := if i <? 0 then i + n else i in
  if (j <? 0) || (n <=? j) then Raise (IndexError "list index out of range")
  else match l !! Z.to_nat j with
       | Some a => Ok a
       | None => Raise (IndexError "list index out of range")
       end.

(** [s.split(sep)] for a one-character separator: never the empty list. *)
Fixpoint split (sep : ascii) (s : string) : list string :=
  match s with
  | EmptyString => [EmptyString]
  | String c s' =>
      if Ascii.eqb c sep then EmptyString :: split sep s'
      else match split sep s' with
           | w :: ws => String c w :: ws
           | [] => [String c EmptyString]
           end
  end.

(** [l.index(x)]: the position of the first item equal to [x]; [None]
    stands for the ValueError raised when there is none. *)
Fixpoint index {A : Type} `{EqDecision A} (l : list A) (x : A) : option Z :=
  match l with
  | [] => None
  | y :: l' => if decide (y = x) then Some 0 else Z.succ <$> index l' x
  end.

End Py.
Import Py.

(** ** [pyface/qt/__init__.py]: the Qt API selector *)

Module QtSelector.

Definition QtAPIs : list (string * string) :=
  [("pyside", "PySide"); ("pyqt5", "PyQt5"); ("pyqt", "PyQt4")].

(** What the module does to its surroundings while it is imported. *)
Inductive event : Type :=
| Import (module : string)
| SetApi (name : string) (version : Z).

(** The process in which the module is imported: the environment variables
    and the modules that an import statement can find. *)
Record process : Type := {
  environ : gmap string string;
  importable : gset string;
}.

(** The state the module body runs on: its global [qt_api], [sys.modules],
    and the imports and [sip.setapi] calls made so far, oldest first. *)
Record state : Type := {
  qt_api : option string;
  sys_modules : gset string;
  trace : list event;
}.

Definition set_qt_api (v : option string) : stmt state := λ st,
  (Normal, {| qt_api := v; sys_modules := sys_modules st; trace := trace st |}).

Definition log (ev : event) (st : state) : state :=
  {| qt_api := qt_api st; sys_modules := sys_modules st;
     trace := trace st ++ [ev] |}.

Section Body.
Variable P : process.

(** [importlib.import_module(module)] and [import module]: a module that
    is in [sys.modules] is found there, one that can be found is loaded
    and entered into [sys.modules], any other raises ImportError.  The
    modules that a loaded module imports in its turn are not followed. *)
Definition import_module (module : string) : stmt state := λ st,
  let st := log (Import module) st in
  if bool_decide (module ∈ sys_modules st) then (Normal, st)
  else if bool_decide (module ∈ importable P) then
    (Normal, {| qt_api := qt_api st;
                sys_modules := {[module]} ∪ sys_modules st;
                trace := trace st |})
  else (Raised (ImportError ("No module named '" ++ module ++ "'")), st).

Definition setapi (name : string) (version : Z) : stmt state := λ st,
  (Normal, log (SetApi name version) st).

Definition prepare_pyqt4 : stmt state :=
  seq (import_module "sip")
 (seq (setapi "QDate" 2)
 (seq (setapi "QDateTime" 2)
 (seq (setapi "QString" 2)
 (seq (setapi "QTextStream" 2)
 (seq (setapi "QTime" 2)
 (seq (setapi "QUrl" 2)
      (setapi "QVariant" 2))))))).

(** [{api_name for api_name, module in QtAPIs}] *)
Definition api_names : gset string := list_to_set (QtAPIs.*1).

(** [%r] of a string, for strings that need no escaping. *)
Definition repr (s : string) : string := "'" ++ s ++ "'".

(** Lines 35-42: have we already imported a Qt API? *)
Definition already_imported : stmt state :=
  for_else QtAPIs
    (λ '(api_name, module),
       if_ (λ st, bool_decide (module ∈ sys_modules st))
           (seq (set_qt_api (Some api_name)) break)
           pass)
    (set_qt_api (environ P !! "QT_API")).

(** Lines 44-60. *)
Definition available_or_valid : stmt state :=
  if_ (λ st, bool_decide (qt_api st = None))
    (for_ QtAPIs
       (λ '(api_name, module),
          try_except_else
            (seq (import_module module)
                 (seq (set_qt_api (Some api_name)) break))
            is_ImportError
            continue
            (raise (ImportError "Cannot import PySide, PyQt5 or PyQt4"))))
    (λ st,
       match qt_api st with
       | Some v =>
           if_ (λ _, bool_decide (v ∉ api_names))
             (raise (RuntimeError
                ("Invalid Qt API " ++ repr v ++ ", valid values are: "
                 ++ "'pyside, 'pyqt' or 'pyqt5'")))
             pass st
       | None => pass st
       end).

(** Lines 33-60: the choice of [qt_api]. *)
Definition select_qt_api : stmt state :=
  seq (set_qt_api None) (seq already_imported available_or_valid).

(** The whole module body, lines 33-65. *)
Definition module_body : stmt state :=
  seq select_qt_api
      (if_ (λ st, bool_decide (qt_api st = Some "pyqt")) prepare_pyqt4 pass).

End Body.

(** The state in which the import of the module starts. *)
Definition initial (loaded : gset string) : state :=
  {| qt_api := None; sys_modules := loaded; trace := [] |}.

End QtSelector.

(** ** Objects, and the [traits] helpers that the row infos call

    [xgetattr] and [xsetattr] are imported from [traits.trait_base]; they walk
    a dotted name with the built-in [getattr] and [setattr].  Objects live in
    a store and are passed by reference, so that a write through one
    reference is seen through every other.  Only the attributes stored on an
    instance and the items of a dictionary are modelled: no class
    attributes, no trait validation or change notification. *)

Module Traits.

Definition loc : Type := positive.

Inductive val : Type :=
| VNone
| VBool (b : bool)
| VInt (n : Z)
| VStr (s : string)
| VRef (l : loc).

Inductive object : Type :=
| Instance (attrs : gmap string val)
| Dict (items : gmap string val).

Abbreviation heap := (gmap loc object).

Definition is_None (v : val) : bool :=
  match v with VNone => true | _ => false end.

(** The attributes of the instance a value refers to, if it is one. *)
Definition attrs_of (h : heap) (object : val) : option (gmap string val) :=
  match object with
  | VRef l => match h !! l with Some (Instance attrs) => Some attrs | _ => None end
  | _ => None
  end.

(** [getattr(object, name, default)] *)
Definition getattr_or (h : heap) (object : val) (name : string)
    (default : val) : val :=
  match attrs_of h object with
  | Some attrs => from_option id default (attrs !! name)
  | None => default
  end.

(** [getattr(object, name)] *)
Definition getattr (object : val) (name : string) : M heap val := λ h,
  match attrs_of h object with
  | Some attrs =>
      match attrs !! name with
      | Some v => (Ok v, h)
      | None => (Raise (AttributeError ("object has no attribute '" ++ name ++ "'")), h)
      end
  | None => (Raise (AttributeError ("object has no attribute '" ++ name ++ "'")), h)
  end.

(** [setattr(object, name, value)] on an instance that takes the value: a
    trait that validates and rejects it is outside this store (see
    [RowInfoOver] for the methods over any [xsetattr]). *)
Definition setattr (object : val) (name : string) (value : val)
    : M heap unit := λ h,
  match object with
  | VRef l =>
      match h !! l with
      | Some (Instance attrs) =>
          (Ok (), <[l := Instance (<[name := value]> attrs)]> h)
      | _ => (Raise (AttributeError ("object has no attribute '" ++ name ++ "'")), h)
      end
  | _ => (Raise (AttributeError ("object has no attribute '" ++ name ++ "'")), h)
  end.

(** The loop and the final [getattr] of [xgetattr(object, xname, default)]
    for a default other than [Undefined], over [names = xname.split('.')]:
    [for name in names[:-1]: object = getattr(object, name, None);
     if object is None: return default] and then
    [return getattr(object, names[-1], default)]. *)
Fixpoint xgetattr_names (h : heap) (object : val) (names : list string)
    (default : val) : val :=
  match names with
  | [] => default
  | [name] => getattr_or h object name default
  | name :: names' =>
      let object := getattr_or h object name VNone in
      if is_None object then default
      else xgetattr_names h object names' default
  end.

Definition xgetattr (h : heap) (object : val) (xname : string)
    (default : val) : val :=
  xgetattr_names h object (split "."%char xname) default.

(** [xsetattr(object, xname, value)]:
    [for name in names[:-1]: object = getattr(object, name)] and then
    [setattr(object, names[-1], value)]. *)
Fixpoint xsetattr_names (object : val) (names : list string) (value : val)
    : M heap unit :=
  match names with
  | [] => throw (IndexError "list index out of range")
  | [name] => setattr object name value
  | name :: names' =>
      object ← getattr object name; xsetattr_names object names' value
  end.

Definition xsetattr (object : val) (xname : string) (value : val)
    : M heap unit :=
  xsetattr_names object (split "."%char xname) value.

(** [data.get(key, default)] on whatever [data] is. *)
Definition dict_get (data : val) (key : string) (default : val)
    : M heap val := λ h,
  match data with
  | VRef l =>
      match h !! l with
      | Some (Dict items) => (Ok (from_option id default (items !! key)), h)
      | _ => (Raise (AttributeError "object has no attribute 'get'"), h)
      end
  | _ => (Raise (AttributeError "object has no attribute 'get'"), h)
  end.

(** [data[key] = value], on the values of this store: of these only a
    dictionary takes an item (see [RowInfoOver] for the methods over any
    item assignment). *)
Definition setitem (data : val) (key : string) (value : val)
    : M heap unit := λ h,
  match data with
  | VRef l =>
      match h !! l with
      | Some (Dict items) => (Ok (), <[l := Dict (<[key := value]> items)]> h)
      | _ => (Raise (TypeError "object does not support item assignment"), h)
      end
  | _ => (Raise (TypeError "object does not support item assignment"), h)
  end.

End Traits.
Import Traits.

(** ** [pyface/data_view/data_models/column_data_model.py] *)

Set Warnings "-register-all".

Module ColumnModel.

(** The two concrete row-info classes, with the traits their methods read:
    [title], [rows], [value] and, for a [DictRowInfo], [key].  The value
    types and the [updated] event serve the view and the observers only. *)
Inductive RowInfo : Type :=
| HasTraitsRowInfo (title : string) (rows : list RowInfo) (value : string)
| DictRowInfo (title : string) (rows : list RowInfo) (value key : string).

Definition title (self : RowInfo) : string :=
  match self with
  | HasTraitsRowInfo title _ _ | DictRowInfo title _ _ _ => title
  end.

Definition rows (self : RowInfo) : list RowInfo :=
  match self with
  | HasTraitsRowInfo _ rows _ | DictRowInfo _ rows _ _ => rows
  end.

Definition value (self : RowInfo) : string :=
  match self with
  | HasTraitsRowInfo _ _ value | DictRowInfo _ _ value _ => value
  end.

(** The methods of the row-info classes; [self_value] and [self_key] stand
    for [self.value] and [self.key]. *)
Module Row.

Definition HasTraitsRowInfo_get_value (self_value : string) (obj : val)
    : M heap val :=
  reads (λ h, xgetattr h obj self_value VNone).

Definition HasTraitsRowInfo_can_set_value (self_value : string)
    (obj : val) : bool :=
  negb (String.eqb self_value EmptyString).

Definition HasTraitsRowInfo_set_value (self_value : string)
    (obj value : val) : M heap bool :=
  if negb (truthy self_value) then mret false
  else _ ← xsetattr obj self_value value; mret true.

Definition DictRowInfo_get_value (self_value self_key : string)
    (obj : val) : M heap val :=
  data ← reads (λ h, xgetattr h obj self_value VNone);
  dict_get data self_key VNone.

Definition DictRowInfo_can_set_value (self_value : string) (obj : val)
    : bool :=
  negb (String.eqb self_value EmptyString).

Definition DictRowInfo_set_value (self_value self_key : string)
    (obj value : val) : M heap bool :=
  data ← reads (λ h, xgetattr h obj self_value VNone);
  _ ← setitem data self_key value;
  mret true.

(** Method dispatch on the class of the row info. *)
Definition get_value (self : RowInfo) (obj : val) : M heap val :=
  match self with
  | HasTraitsRowInfo _ _ self_value =>
      HasTraitsRowInfo_get_value self_value obj
  | DictRowInfo _ _ self_value self_key =>
      DictRowInfo_get_value self_value self_key obj
  end.

Definition can_set_value (self : RowInfo) (obj : val) : bool :=
  match self with
  | HasTraitsRowInfo _ _ self_value =>
      HasTraitsRowInfo_can_set_value self_value obj
  | DictRowInfo _ _ self_value _ =>
      DictRowInfo_can_set_value self_value obj
  end.

Definition set_value (self : RowInfo) (obj value : val) : M heap bool :=
  match self with
  | HasTraitsRowInfo _ _ self_value =>
      HasTraitsRowInfo_set_value self_value obj value
  | DictRowInfo _ _ self_value self_key =>
      DictRowInfo_set_value self_value self_key obj value
  end.

End Row.

(** A [ColumnDataModel]: the objects shown in the columns, by reference,
    and the root of the row-info tree. *)
Record ColumnDataModel : Type := {
  data : list val;
  row_info : RowInfo;
}.

(** The loop of [_row_info_object], from the row info reached so far. *)
Fixpoint row_info_from (row_info : RowInfo) (row : list Z) : result RowInfo :=
  match row with
  | [] => Ok row_info
  | index :: row' =>
      row_info ← getitem (rows row_info) index;
      row_info_from row_info row'
  end.

Definition _row_info_object (self : ColumnDataModel) (row : list Z)
    : result RowInfo :=
  row_info_from (row_info self) row.

Definition get_column_count (self : ColumnDataModel) (row : list Z) : Z :=
  Z.of_nat (length (data self)).

Definition can_have_children (self : ColumnDataModel) (row : list Z)
    : result bool :=
  if (length row =? 0)%nat then mret true
  else
    row_info ← _row_info_object self row;
    mret (negb (length (rows row_info) =? 0)%nat).

Definition get_row_count (self : ColumnDataModel) (row : list Z)
    : result Z :=
  row_info ← _row_info_object self row;
  mret (Z.of_nat (length (rows row_info))).

(** [column[0]] *)
Definition column_0 (column : list Z) : result Z := getitem column 0.

Definition get_value (self : ColumnDataModel) (row column : list Z)
    : M heap val :=
  row_info ← lift (_row_info_object self row);
  if (length column =? 0)%nat then mret (VStr (title row_info))
  else
    obj ← lift (index ← column_0 column; getitem (data self) index);
    Row.get_value row_info obj.

Definition set_value (self : ColumnDataModel) (row column : list Z)
    (value : val) : M heap bool :=
  row_info ← lift (_row_info_object self row);
  if (length column =? 0)%nat then mret false
  else
    obj ← lift (index ← column_0 column; getitem (data self) index);
    Row.set_value row_info obj value.

(** [AbstractRowInfo.__iter__]: the row info itself, then, for each of its
    rows in turn, everything that row yields. *)
Fixpoint __iter__ (self : RowInfo) : list RowInfo :=
  self :: (row ← rows self; __iter__ row).

(** [get_observable] of the two classes. *)
Definition HasTraitsRowInfo_get_observable (self_value : string) : string :=
  self_value.

Definition DictRowInfo_get_observable (self_value : string) : string :=
  self_value ++ ".items".

End ColumnModel.

(** ** The row-info methods over any implementation of what they import

    [HasTraitsRowInfo] and [DictRowInfo] call [xgetattr] and [xsetattr] of
    [traits.trait_base] and the [get] and item assignment of whatever the
    lookup yields.  None of these is code of this repository; here they are
    taken as they come: any store, any values, any behaviour, including
    the validation of a trait that rejects a value. *)

Module RowInfoOver.

Class Helpers : Type := {
  Store : Type;
  Value : Type;
  (** [None] *)
  none : Value;
  (** [xgetattr(object, xname, default)] *)
  xgetattr : Value → string → Value → M Store Value;
  (** [xsetattr(object, xname, value)] *)
  xsetattr : Value → string → Value → M Store unit;
  (** [data.get(key, default)] *)
  get : Value → string → Value → M Store Value;
  (** [data[key] = value] *)
  setitem : Value → string → Value → M Store unit;
}.

Section Methods.
Context `{Helpers}.

Definition HasTraitsRowInfo_get_value (self_value : string) (obj : Value)
    : M Store Value :=
  xgetattr obj self_value none.

Definition HasTraitsRowInfo_can_set_value (self_value : string)
    (obj : Value) : bool :=
  negb (String.eqb self_value EmptyString).

Definition HasTraitsRowInfo_set_value (self_value : string)
    (obj value : Value) : M Store bool :=
  if negb (truthy self_value) then mret false
  else _ ← xsetattr obj self_value value; mret true.

Definition DictRowInfo_get_value (self_value self_key : string)
    (obj : Value) : M Store Value :=
  data ← xgetattr obj self_value none;
  get data self_key none.

Definition DictRowInfo_can_set_value (self_value : string) (obj : Value)
    : bool :=
  negb (String.eqb self_value EmptyString).

Definition DictRowInfo_set_value (self_value self_key : string)
    (obj value : Value) : M Store bool :=
  data ← xgetattr obj self_value none;
  _ ← setitem data self_key value;
  mret true.

End Methods.

(** The helpers on the attribute store of [Traits]. *)
Definition store_helpers : Helpers := {|
  Store := heap;
  Value := val;
  none := VNone;
  xgetattr := λ object xname default,
    reads (λ h, Traits.xgetattr h object xname default);
  xsetattr := Traits.xsetattr;
  get := Traits.dict_get;
  setitem := Traits.setitem;
|}.

(** The same helpers with an [age] trait that validates: [xsetattr] on the
    name [age] accepts integers only and raises TraitError, with nothing
    written, for any other value. *)
Definition validating_helpers : Helpers := {|
  Store := heap;
  Value := val;
  none := VNone;
  xgetattr := λ object xname default,
    reads (λ h, Traits.xgetattr h object xname default);
  xsetattr := λ object xname value,
    match xname, value with
    | "age", VInt _ => Traits.xsetattr object xname value
    | "age", _ => throw (TraitError "The 'age' trait must be an integer")
    | _, _ => Traits.xsetattr object xname value
    end;
  get := Traits.dict_get;
  setitem := Traits.setitem;
|}.

End RowInfoOver.

(** ** Row infos as objects: the observers of [AbstractRowInfo]

    An observer is handed the row info whose event fired and looks it up in
    [self.rows] with [list.index], which on row infos compares by identity.
    Here a row info is an object in a store of its own, known by its
    reference, and its rows are references. *)

Module RowObjects.

Record RowObject : Type := {
  title : string;
  rows : list loc;
}.

Abbreviation row_store := (gmap loc RowObject).

(** [self.rows] of the row info a reference denotes; a reference to nothing
    has no rows. *)
Definition rows_of (R : row_store) (self : loc) : list loc :=
  match R !! self with
  | Some object => rows object
  | None => []
  end.

(** The value of an [updated] event: the row info that changed, the part of
    it that did, and the row index of that row info below the receiver. *)
Definition payload : Type := loc * string * list Z.

(** [rows.index(row)] on references. *)
Definition rows_index (rows : list loc) (row : loc) : result Z :=
  match index rows row with
  | Some i => Ok i
  | None => Raise (ValueError "row is not in list")
  end.

(** The observers; each yields the value it assigns to [self.updated].  For
    [row_item_updated], [row] is [event.object], the row whose [updated]
    fired, and [new] is [event.new]. *)
Definition title_updated (self : loc) : payload := (self, "title", []).

Definition value_type_updated (self : loc) : payload := (self, "value", []).

Definition rows_updated (self : loc) : payload := (self, "rows", []).

Definition row_item_updated (R : row_store) (self row : loc) (new : payload)
    : result payload :=
  let '(row_info, part, row_index) := new in
  i ← rows_index (rows_of R self) row;
  mret (row_info, part, ([i] ++ row_index)%list).

(** The loop of [_row_info_object], on references. *)
Fixpoint row_info_from (R : row_store) (row_info : loc) (row : list Z)
    : result loc :=
  match row with
  | [] => Ok row_info
  | index :: row' =>
      row_info ← getitem (rows_of R row_info) index;
      row_info_from R row_info row'
  end.

End RowObjects.

(** ** [pyface/data_view/abstract_value_type.py] *)

Module ValueType.

(** The default [AbstractValueType.set_text]; [DataViewSetError] is the
    exception class of [abstract_data_model]. *)
Definition set_text {Model : Type} (model : Model) (row column : list Z)
    (text : string) : M heap unit :=
  throw (DataViewSetError "Cannot set value.").

(** The default [AbstractValueType.has_color]. *)
Definition has_color {Model : Type} (model : Model) (row column : list Z)
    : M heap bool :=
  mret false.

(** [str(value)]; the text of an object is whatever its class makes it,
    here [object_str]. *)
Definition str (object_str : loc → string) (value : val) : string :=
  match value with
  | VNone => "None"
  | VBool true => "True"
  | VBool false => "False"
  | VInt n => pretty n
  | VStr s => s
  | VRef l => object_str l
  end.

(** The default [get_editor_value]. *)
Definition get_editor_value (model : ColumnModel.ColumnDataModel)
    (row column : list Z) : M heap val :=
  ColumnModel.get_value model row column.

(** The default [set_editor_value]: the result of [model.set_value] is
    dropped and the method returns None. *)
Definition set_editor_value (model : ColumnModel.ColumnDataModel)
    (row column : list Z) (value : val) : M heap unit :=
  _ ← ColumnModel.set_value model row column value;
  mret ().

(** The default [get_text] and [has_text]. *)
Definition get_text (object_str : loc → string)
    (model : ColumnModel.ColumnDataModel) (row column : list Z)
    : M heap string :=
  value ← ColumnModel.get_value model row column;
  mret (str object_str value).

Definition has_text (object_str : loc → string)
    (model : ColumnModel.ColumnDataModel) (row column : list Z)
    : M heap bool :=
  text ← get_text object_str model row column;
  mret (negb (String.eqb text EmptyString)).

End ValueType.

(** ** [pyface/color_dialog.py] *)

Module ColorDialogs.

(** A keyword argument of a dialog constructor. *)
Inductive kwarg (Control Color : Type) : Type :=
| AControl (c : Control)
| AColor (c : Color)
| ABool (b : bool).
Arguments AControl {Control Color} c.
Arguments AColor {Control Color} c.
Arguments ABool {Control Color} b.

(** What the module imports: the [OK] result code of [pyface.constant] and
    the [ColorDialog] class of the selected toolkit.  A dialog is built from
    keyword arguments, [open()] blocks on the user and yields a result code,
    after which the dialog holds the colour the user picked. *)
Class Toolkit : Type := {
  Control : Type;
  Color : Type;
  Dialog : Type;
  World : Type;
  OK : Z;
  ColorDialog : gmap string (kwarg Control Color) → Dialog;
  open : Dialog → World → Z * Dialog * World;
  dialog_color : Dialog → Color;
}.

Definition get_color `{Toolkit} (parent : Control) (color : Color)
    (show_alpha : bool) : World → option Color * World := λ w,
  let dialog := ColorDialog {[ "color" := AColor color ]} in
  let '(result, dialog, w) := open dialog w in
  if result =? OK then (Some (dialog_color dialog), w)
  else (None, w).

(** A toolkit to run [get_color] on: controls and colours are numbers, a
    dialog is its keyword arguments, and the world is the list of answers
    the user will give, each a result code and the colour picked. *)
Definition scripted_open (dialog : gmap string (kwarg Z Z))
    (w : list (Z * Z)) : Z * gmap string (kwarg Z Z) * list (Z * Z) :=
  match w with
  | [] => (20, dialog, [])
  | (code, picked) :: w' => (code, <["color" := AColor picked]> dialog, w')
  end.

Definition scripted_color (dialog : gmap string (kwarg Z Z)) : Z :=
  match dialog !! "color" with
  | Some (AColor c) => c
  | _ => 0
  end.

Definition scripted : Toolkit := {|
  Control := Z;
  Color := Z;
  Dialog := gmap string (kwarg Z Z);
  World := list (Z * Z);
  OK := 10;
  ColorDialog := λ kwargs, kwargs;
  open := scripted_open;
  dialog_color := scripted_color;
|}.

End ColorDialogs.

(** ** Notions used to state the properties *)

(** The first pair of [QtAPIs], in order, whose module is in the set. *)
Definition first_in (S : gset string) : option (nat * (string * string)) :=
  list_find (λ p : string * string, p.2 ∈ S) QtSelector.QtAPIs.

(** A row path that is valid from a row info: each index selects a child of
    the row info reached before it. *)
Inductive valid_path : ColumnModel.RowInfo → list Z → ColumnModel.RowInfo → Prop :=
| valid_here (row_info : ColumnModel.RowInfo) :
    valid_path row_info [] row_info
| valid_child (row_info child target : ColumnModel.RowInfo) (index : Z)
      (row : list Z) :
    getitem (ColumnModel.rows row_info) index = Ok child →
    valid_path child row target →
    valid_path row_info (index :: row) target.

(** The prefix of a dotted name resolves, attribute by attribute, to an
    instance: the object whose attribute [xsetattr] writes. *)
Fixpoint resolves (h : heap) (object : val) (names : list string)
    : option (loc * string) :=
  match names with
  | [] => None
  | [name] =>
      match object with
      | VRef l =>
          match attrs_of h object with Some _ => Some (l, name) | None => None end
      | _ => None
      end
  | name :: names' =>
      attrs ← attrs_of h object;
      object ← attrs !! name;
      resolves h object names'
  end.

(** The choice the selector is specified to make, as a decision table:
    a binding that is already loaded wins, then a valid [QT_API], then the
    first binding that can be imported, tried in the order of [QtAPIs]. *)
Definition selection (P : QtSelector.process) (loaded : gset string)
    : completion * QtSelector.state :=
  match first_in loaded with
  | Some (_, (api, _)) =>
      (Normal, {| QtSelector.qt_api := Some api;
                  QtSelector.sys_modules := loaded;
                  QtSelector.trace := [] |})
  | None =>
      match QtSelector.environ P !! "QT_API" with
      | Some v =>
          if bool_decide (v ∈ ["pyside"; "pyqt5"; "pyqt"]) then
            (Normal, {| QtSelector.qt_api := Some v;
                        QtSelector.sys_modules := loaded;
                        QtSelector.trace := [] |})
          else
            (Raised (RuntimeError
               ("Invalid Qt API " ++ QtSelector.repr v
                ++ ", valid values are: 'pyside, 'pyqt' or 'pyqt5'")),
             {| QtSelector.qt_api := Some v;
                QtSelector.sys_modules := loaded;
                QtSelector.trace := [] |})
      | None =>
          match first_in (QtSelector.importable P) with
          | Some (i, (api, module)) =>
              (Normal, {| QtSelector.qt_api := Some api;
                          QtSelector.sys_modules := {[module]} ∪ loaded;
                          QtSelector.trace :=
                            QtSelector.Import <$> take (S i) ["PySide"; "PyQt5"; "PyQt4"] |})
          | None =>
              (Normal, {| QtSelector.qt_api := None;
                          QtSelector.sys_modules := loaded;
                          QtSelector.trace :=
                            QtSelector.Import <$> ["PySide"; "PyQt5"; "PyQt4"] |})
          end
      end
  end.

(** ** Example data

    The row infos of [examples/data_view/column_example.py], a store with
    one person and their address, and a model over them. *)

Module Example.
Import ColumnModel.

Definition row_info : RowInfo :=
  HasTraitsRowInfo "People"
    [ HasTraitsRowInfo "Age" [] "age";
      HasTraitsRowInfo "Address"
        [ HasTraitsRowInfo "Street" [] "address.street";
          HasTraitsRowInfo "City" [] "address.city";
          HasTraitsRowInfo "Country" [] "address.country" ]
        "address" ]
    "name".

Definition person : loc := 1%positive.
Definition address : loc := 2%positive.

Definition store : heap :=
  {[ person := Instance {[ "name" := VStr "Ann"; "age" := VInt 30;
                           "address" := VRef address ]};
     address := Instance {[ "street" := VStr "Main Street";
                            "city" := VStr "Austin";
                            "country" := VStr "USA" ]} ]}.

Definition model : ColumnDataModel :=
  {| data := [VRef person]; ColumnModel.row_info := row_info |}.

(** A process with no Qt binding installed and no [QT_API], and one whose
    [QT_API] names a binding the selector does not know. *)
Definition no_backend : QtSelector.process :=
  {| QtSelector.environ := {[ "HOME" := "/root" ]};
     QtSelector.importable := {[ "os"; "sys" ]} |}.

Definition unknown_api : QtSelector.process :=
  {| QtSelector.environ := {[ "QT_API" := "pyqt6" ]};
     QtSelector.importable := {[ "PyQt5" ]} |}.

(** The row info of the street, two levels down. *)
Definition street : RowInfo := HasTraitsRowInfo "Street" [] "address.street".


Definition bare : loc := 3%positive.
Definition bare_store : heap := {[ bare := Instance ∅ ]}.

(** The row info of the address, parent of [street]. *)
Definition address_rows : RowInfo :=
  HasTraitsRowInfo "Address"
    [ HasTraitsRowInfo "Street" [] "address.street";
      HasTraitsRowInfo "City" [] "address.city";
      HasTraitsRowInfo "Country" [] "address.country" ]
    "address".

(** A process that asks for PyQt4 without [sip] installed, and one with
    PyQt5 installed and no preference. *)
Definition pyqt_without_sip : QtSelector.process :=
  {| QtSelector.environ := {[ "QT_API" := "pyqt" ]};
     QtSelector.importable := {[ "PyQt4" ]} |}.

Definition pyqt5_installed : QtSelector.process :=
  {| QtSelector.environ := {[ "HOME" := "/root" ]};
     QtSelector.importable := {[ "PyQt5"; "PyQt4"; "sip" ]} |}.

(** A person with a dictionary of tags, and a row info that shows one. *)
Definition tags : loc := 4%positive.

Definition tagged_store : heap :=
  {[ person := Instance {[ "name" := VStr "Ann"; "tags" := VRef tags ]};
     tags := Dict {[ "team" := VStr "blue" ]} ]}.

Definition team_row : RowInfo := DictRowInfo "Team" [] "tags" "team".

(** The model over the object with no attributes. *)
Definition bare_model : ColumnDataModel :=
  {| data := [VRef bare]; ColumnModel.row_info := row_info |}.

(** The row infos of the example as objects: People over Age and Address,
    Address over Street, City and Country. *)
Definition people_ref : loc := 10%positive.
Definition age_ref : loc := 11%positive.
Definition address_ref : loc := 12%positive.
Definition street_ref : loc := 13%positive.
Definition city_ref : loc := 14%positive.
Definition country_ref : loc := 15%positive.

Definition row_objects : gmap loc RowObjects.RowObject :=
  {[ people_ref := {| RowObjects.title := "People";
                      RowObjects.rows := [age_ref; address_ref] |};
     age_ref := {| RowObjects.title := "Age"; RowObjects.rows := [] |};
     address_ref := {| RowObjects.title := "Address";
                       RowObjects.rows := [street_ref; city_ref; country_ref] |};
     street_ref := {| RowObjects.title := "Street"; RowObjects.rows := [] |};
     city_ref := {| RowObjects.title := "City"; RowObjects.rows := [] |};
     country_ref := {| RowObjects.title := "Country"; RowObjects.rows := [] |} ]}.

(** A row info over two rows that are equal field by field, and a third
    row info, equal to them, that is not one of its rows. *)
Definition twins_ref : loc := 20%positive.
Definition first_twin : loc := 21%positive.
Definition second_twin : loc := 22%positive.
Definition stranger : loc := 23%positive.

Definition twins : gmap loc RowObjects.RowObject :=
  {[ twins_ref := {| RowObjects.title := "Twins";
                     RowObjects.rows := [first_twin; second_twin] |};
     first_twin := {| RowObjects.title := "Twin"; RowObjects.rows := [] |};
     second_twin := {| RowObjects.title := "Twin"; RowObjects.rows := [] |};
     stranger := {| RowObjects.title := "Twin"; RowObjects.rows := [] |} ]}.

End Example.

(** The calls that [prepare_pyqt4] makes on [sip], in order. *)
Definition sip_calls : list QtSelector.event :=
  [ QtSelector.SetApi "QDate" 2; QtSelector.SetApi "QDateTime" 2;
    QtSelector.SetApi "QString" 2; QtSelector.SetApi "QTextStream" 2;
    QtSelector.SetApi "QTime" 2; QtSelector.SetApi "QUrl" 2;
    QtSelector.SetApi "QVariant" 2 ].

Definition is_SetApi (ev : QtSelector.event) : bool :=
  match ev with QtSelector.SetApi _ _ => true | QtSelector.Import _ => false end.

(** An [updated] event travelling up the tree: every row info observes the
    [updated] of its rows with [row_item_updated] and fires its own.
    [ancestors] are the row infos above [row], the parent first. *)
Fixpoint bubble (R : RowObjects.row_store) (ancestors : list loc)
    (row : loc) (new : RowObjects.payload) : result RowObjects.payload :=
  match ancestors with
  | [] => Ok new
  | parent :: ancestors' =>
      new ← RowObjects.row_item_updated R parent row new;
      bubble R ancestors' parent new
  end.

(** [ancestors], the parent first, is a chain of row infos down to [row]:
    each is, itself, among the rows of the next. *)
Fixpoint chain (R : RowObjects.row_store) (ancestors : list loc) (row : loc)
    : Prop :=
  match ancestors with
  | [] => True
  | parent :: ancestors' =>
      row ∈ RowObjects.rows_of R parent ∧ chain R ancestors' parent
  end.

(** What the selection can yield. *)
Inductive selected (P : QtSelector.process) (loaded : gset string)
    : completion → QtSelector.state → Prop :=
| selected_loaded i api module :
    first_in loaded = Some (i, (api, module)) →
    selected P loaded Normal
      {| QtSelector.qt_api := Some api; QtSelector.sys_modules := loaded; QtSelector.trace := [] |}
| selected_environ v :
    first_in loaded = None → QtSelector.environ P !! "QT_API" = Some v →
    v ∈ ["pyside"; "pyqt5"; "pyqt"] →
    selected P loaded Normal
      {| QtSelector.qt_api := Some v; QtSelector.sys_modules := loaded; QtSelector.trace := [] |}
| selected_invalid v :
    first_in loaded = None → QtSelector.environ P !! "QT_API" = Some v →
    v ∉ ["pyside"; "pyqt5"; "pyqt"] →
    selected P loaded
      (Raised (RuntimeError
         ("Invalid Qt API " ++ QtSelector.repr v
          ++ ", valid values are: 'pyside, 'pyqt' or 'pyqt5'")))
      {| QtSelector.qt_api := Some v; QtSelector.sys_modules := loaded; QtSelector.trace := [] |}
| selected_imported i api module :
    first_in loaded = None → QtSelector.environ P !! "QT_API" = None →
    first_in (QtSelector.importable P) = Some (i, (api, module)) →
    selected P loaded Normal
      {| QtSelector.qt_api := Some api; QtSelector.sys_modules := {[module]} ∪ loaded;
         QtSelector.trace := QtSelector.Import <$> take (S i) ["PySide"; "PyQt5"; "PyQt4"] |}
| selected_none :
    first_in loaded = None → QtSelector.environ P !! "QT_API" = None →
    first_in (QtSelector.importable P) = None →
    selected P loaded Normal
      {| QtSelector.qt_api := None; QtSelector.sys_modules := loaded;
         QtSelector.trace := QtSelector.Import <$> ["PySide"; "PyQt5"; "PyQt4"] |}.

(** * Properties *)

(** ** The Qt API selector *)

Section QtSelectorFacts.
Import QtSelector.

Lemma first_in_None S :
  first_in S = None ↔ ("PySide" ∉ S) ∧ ("PyQt5" ∉ S) ∧ ("PyQt4" ∉ S).
Proof.
  unfold first_in, QtAPIs. rewrite list_find_None, !Forall_cons, Forall_nil.
  simpl. tauto.
Qed.

Lemma first_in_Some S i api module :
  first_in S = Some (i, (api, module)) →
  (i = 0%nat ∧ api = "pyside" ∧ module = "PySide" ∧ "PySide" ∈ S)
  ∨ (i = 1%nat ∧ api = "pyqt5" ∧ module = "PyQt5"
     ∧ ("PySide" ∉ S) ∧ "PyQt5" ∈ S)
  ∨ (i = 2%nat ∧ api = "pyqt" ∧ module = "PyQt4"
     ∧ ("PySide" ∉ S) ∧ ("PyQt5" ∉ S) ∧ "PyQt4" ∈ S).
Proof.
  unfold first_in. intros (Hi & Hin & Hbefore)%list_find_Some.
  destruct i as [|[|[|i]]]; simpl in Hi; simplify_eq; simpl in *.
  - auto.
  - right; left. repeat split; auto. apply (Hbefore 0%nat _ eq_refl). lia.
  - right; right. repeat split; auto.
    + apply (Hbefore 0%nat _ eq_refl). lia.
    + apply (Hbefore 1%nat _ eq_refl). lia.
Qed.

Lemma elem_of_api_names v :
  v ∈ api_names ↔ v ∈ ["pyside"; "pyqt5"; "pyqt"].
Proof.
  unfold api_names, QtAPIs. simpl.
  rewrite !elem_of_union, !elem_of_singleton, elem_of_empty.
  rewrite !elem_of_cons, elem_of_nil. tauto.
Qed.

Ltac step :=
  cbv beta iota zeta delta
    [module_body select_qt_api already_imported available_or_valid
     prepare_pyqt4 QtAPIs for_else for_ seq if_ try_except_else set_qt_api
     pass break continue raise import_module setapi log initial qt_api
     sys_modules trace is_ImportError app fst snd].

Ltac run :=
  repeat (step;
          first [ rewrite bool_decide_eq_false_2 by done
                | rewrite bool_decide_eq_true_2 by done ]);
  step.

(** A [try] body that ends in [break] never falls off its end, so the
    [else] clause of that [try] cannot run: any other statement in its place
    gives the same program.  The [raise ImportError] of line 54 is such a
    clause. *)
Lemma else_after_break_unreachable {S : Type} (s1 s2 : stmt S)
    (catches : exn → bool) (handler orelse orelse' : stmt S) (s : S) :
  try_except_else (seq s1 (seq s2 break)) catches handler orelse s
  = try_except_else (seq s1 (seq s2 break)) catches handler orelse' s.
Proof.
  unfold try_except_else, seq, break.
  destruct (s1 s) as [[| | |e] s']; try reflexivity.
  destruct (s2 s') as [[| | |e] s'']; reflexivity.
Qed.

(** Lines 35-39: a binding that is already loaded is chosen at once. *)
Lemma select_loaded P loaded i api module :
  first_in loaded = Some (i, (api, module)) →
  select_qt_api P (initial loaded)
  = (Normal, {| qt_api := Some api; sys_modules := loaded; trace := [] |}).
Proof.
  intros [H|[H|H]]%first_in_Some; destruct_and!; subst; by run.
Qed.

(** Lines 40-42 and 57: a valid [QT_API] is taken as it is. *)
Lemma select_environ_valid P loaded v :
  first_in loaded = None → environ P !! "QT_API" = Some v → v ∈ api_names →
  select_qt_api P (initial loaded)
  = (Normal, {| qt_api := Some v; sys_modules := loaded; trace := [] |}).
Proof.
  intros (H1 & H2 & H3)%first_in_None He Hv. run. rewrite He. run.
  rewrite bool_decide_eq_false_2 by (intros Hn; by apply Hn). done.
Qed.

(** Lines 57-60: any other [QT_API] is refused. *)
Lemma select_environ_invalid P loaded v :
  first_in loaded = None → environ P !! "QT_API" = Some v → v ∉ api_names →
  select_qt_api P (initial loaded)
  = (Raised (RuntimeError ("Invalid Qt API " ++ repr v
              ++ ", valid values are: 'pyside, 'pyqt' or 'pyqt5'")),
     {| qt_api := Some v; sys_modules := loaded; trace := [] |}).
Proof.
  intros (H1 & H2 & H3)%first_in_None He Hv. run. rewrite He. by run.
Qed.

(** Lines 45-54: without a preference the bindings are tried in order; the
    loop ends at the first that imports, or after the last. *)
Lemma select_environ_unset P loaded :
  first_in loaded = None → environ P !! "QT_API" = None →
  select_qt_api P (initial loaded)
  = match first_in (importable P) with
    | Some (i, (api, module)) =>
        (Normal, {| qt_api := Some api; sys_modules := {[module]} ∪ loaded;
                    trace := Import <$> take (S i) ["PySide"; "PyQt5"; "PyQt4"] |})
    | None =>
        (Normal, {| qt_api := None; sys_modules := loaded;
                    trace := Import <$> ["PySide"; "PyQt5"; "PyQt4"] |})
    end.
Proof.
  intros (H1 & H2 & H3)%first_in_None He.
  destruct (first_in (importable P)) as [[i [api module]]|] eqn:Hf.
  - apply first_in_Some in Hf as [H|[H|H]]; destruct_and!; subst;
      run; rewrite ?He; by run.
  - apply first_in_None in Hf as (I1 & I2 & I3). run. rewrite ?He. by run.
Qed.

(** The last statement of the module does nothing unless ['pyqt'] was
    chosen. *)
Lemma module_body_after_select P st c st' :
  select_qt_api P st = (c, st') →
  (c ≠ Normal ∨ qt_api st' ≠ Some "pyqt") →
  module_body P st = (c, st').
Proof.
  intros Hsel Hcase. unfold module_body at 1, seq. rewrite Hsel.
  destruct c; try done. unfold if_.
  rewrite bool_decide_eq_false_2; [done|]. by destruct Hcase.
Qed.

(** The selection loops compute the decision table. *)
Lemma select_qt_api_selection P loaded :
  select_qt_api P (initial loaded) = selection P loaded.
Proof.
  unfold selection.
  destruct (first_in loaded) as [[i [api module]]|] eqn:Hloaded.
  - by eapply select_loaded.
  - destruct (environ P !! "QT_API") as [v|] eqn:He.
    + case_bool_decide as Hv.
      * apply select_environ_valid; [done..|]. by apply elem_of_api_names.
      * apply select_environ_invalid; [done..|]. by rewrite elem_of_api_names.
    + by apply select_environ_unset.
Qed.

(** The [raise ImportError] of line 54 is never reached: the selection
    ends normally or with the RuntimeError of line 60. *)
Lemma select_never_raises_ImportError P loaded msg :
  (select_qt_api P (initial loaded)).1 ≠ Raised (ImportError msg).
Proof.
  rewrite select_qt_api_selection. unfold selection.
  repeat case_match; done.
Qed.

(** C6. The selector makes its choice by the precedence of the decision
    table [selection]: when PySide, PyQt5 or PyQt4 is already in
    [sys.modules], the API name of the first such binding is chosen and
    neither the environment nor an import plays a part; otherwise a
    [QT_API] that is one of 'pyside', 'pyqt5', 'pyqt' is chosen with no
    import attempted; only with no loaded binding and no [QT_API] are the
    bindings tried for import, in the order PySide, PyQt5, PyQt4, up to the
    first that imports. *)
Theorem qt_api_precedence (P : process) (loaded : gset string) :
  select_qt_api P (initial loaded) = selection P loaded.
Proof. apply select_qt_api_selection. Qed.

(** C1.  The ImportError that the comment on line 44 announces does not
    occur.  With no binding loaded, [QT_API] unset and no binding
    importable, every import is tried and fails, and the module body
    completes normally with [qt_api] left at [None]: the [raise ImportError]
    sits in the [else] of the [try], which the [break] before it always
    skips. *)
Theorem shim_without_backend_completes (P : process) (loaded : gset string) :
  first_in loaded = None →
  environ P !! "QT_API" = None →
  first_in (importable P) = None →
  module_body P (initial loaded)
  = (Normal, {| qt_api := None; sys_modules := loaded;
                trace := [Import "PySide"; Import "PyQt5"; Import "PyQt4"] |}).
Proof.
  intros Hloaded He Himp.
  apply module_body_after_select; [|by right].
  rewrite select_environ_unset by done. rewrite Himp. reflexivity.
Qed.

(** C8. With no binding loaded and [QT_API] set to anything other than
    'pyside', 'pyqt5' or 'pyqt', importing the module raises RuntimeError,
    and no import has been attempted when it does. *)
Theorem invalid_QT_API_raises_RuntimeError (P : process)
    (loaded : gset string) (v : string) :
  first_in loaded = None →
  environ P !! "QT_API" = Some v →
  v ∉ ["pyside"; "pyqt5"; "pyqt"] →
  ∃ msg st,
    module_body P (initial loaded) = (Raised (RuntimeError msg), st)
    ∧ trace st = []
    ∧ sys_modules st = loaded.
Proof.
  intros Hloaded He Hv. eexists _, _. split.
  - apply module_body_after_select; [|by left].
    apply select_environ_invalid; [done..|]. by rewrite elem_of_api_names.
  - done.
Qed.

End QtSelectorFacts.

(** ** The row infos and the column data model *)

Section ColumnModelFacts.
Import ColumnModel.

Lemma result_bind_Ok {A B : Type} (a : A) (f : A → result B) :
  Ok a ≫= f = f a.
Proof. reflexivity. Qed.

Lemma result_bind_Raise {A B : Type} (e : exn) (f : A → result B) :
  Raise e ≫= f = Raise e.
Proof. reflexivity. Qed.

Lemma M_bind_lift_Ok {S A B : Type} (a : A) (f : A → M S B) (s : S) :
  (lift (Ok a) ≫= f) s = f a s.
Proof. reflexivity. Qed.

Lemma M_bind_lift_Raise {S A B : Type} (e : exn) (f : A → M S B) (s : S) :
  (lift (Raise e) ≫= f) s = (Raise e, s).
Proof. reflexivity. Qed.

(** A subscript succeeds on the indices of the list, counted from the
    front or, when negative, from the end. *)
Lemma getitem_Ok {A : Type} (l : list A) (i : Z) (a : A) :
  getitem l i = Ok a
  ↔ (0 ≤ i ∧ l !! Z.to_nat i = Some a)
    ∨ (i < 0 ∧ 0 ≤ i + Z.of_nat (length l)
       ∧ l !! Z.to_nat (i + Z.of_nat (length l)) = Some a).
Proof.
  unfold getitem.
  destruct (Z.ltb_spec i 0) as [Hneg|Hpos].
  - destruct (Z.ltb_spec (i + Z.of_nat (length l)) 0) as [Hlow|Hlow]; cbn [orb].
    + split; [done|]. intros [[? _]|(_ & ? & _)]; lia.
    + destruct (Z.leb_spec (Z.of_nat (length l)) (i + Z.of_nat (length l)));
        [lia|].
      destruct (l !! Z.to_nat (i + Z.of_nat (length l))) as [a'|].
      * split; [intros [= ->]; by right|].
        intros [[? _]|(_ & _ & [= ->])]; [lia|done].
      * split; [done|]. intros [[? _]|(_ & _ & ?)]; [lia|done].
  - destruct (Z.ltb_spec i 0) as [?|_]; [lia|]. cbn [orb].
    destruct (Z.leb_spec (Z.of_nat (length l)) i) as [Hhigh|Hhigh].
    + split; [done|]. intros [[_ Hl]|[? _]]; [|lia].
      apply lookup_lt_Some in Hl. lia.
    + destruct (l !! Z.to_nat i) as [a'|].
      * split; [intros [= ->]; by left|].
        intros [[_ [= ->]]|[? _]]; [done|lia].
      * split; [done|]. intros [[_ ?]|[? _]]; [done|lia].
Qed.

(** [_row_info_object] succeeds exactly on the valid row paths, and then
    yields the row info that the path leads to. *)
Lemma row_info_from_valid row_info row target :
  row_info_from row_info row = Ok target ↔ valid_path row_info row target.
Proof.
  split.
  - revert row_info. induction row as [|index row IH]; intros row_info Hrun.
    + injection Hrun as ->. constructor.
    + simpl in Hrun.
      destruct (getitem (rows row_info) index) as [child|e] eqn:Hchild.
      * rewrite result_bind_Ok in Hrun. econstructor; eauto.
      * discriminate Hrun.
  - induction 1 as [|row_info child target index row Hchild _ IH]; [done|].
    simpl. by rewrite Hchild.
Qed.

Lemma row_info_object_valid self row target :
  valid_path (row_info self) row target → _row_info_object self row = Ok target.
Proof. apply row_info_from_valid. Qed.

(** [column[0]] of a column path that is not empty is its first index. *)
Lemma column_0_cons index column : column_0 (index :: column) = Ok index.
Proof.
  unfold column_0, getitem. cbn [length].
  replace (0 <? 0) with false by reflexivity.
  replace (Z.of_nat (S (length column)) <=? 0) with false
    by (symmetry; apply Z.leb_gt; lia).
  reflexivity.
Qed.

(** C2. On a valid row path the model's [get_value] reads from the row info
    that the path leads to: its title for an empty column path; otherwise
    the row info's own [get_value] on the object [data[column[0]]], the
    IndexError of that subscript passing through when there is no such
    object. *)
Theorem get_value_follows_row_path (self : ColumnDataModel)
    (row column : list Z) (target : RowInfo) (h : heap) :
  valid_path (row_info self) row target →
  match column with
  | [] => get_value self row column h = (Ok (VStr (title target)), h)
  | index :: _ =>
      match getitem (data self) index with
      | Ok obj => get_value self row column h = Row.get_value target obj h
      | Raise e => get_value self row column h = (Raise e, h)
      end
  end.
Proof.
  intros Hvalid%row_info_object_valid. unfold get_value. rewrite Hvalid.
  rewrite M_bind_lift_Ok. destruct column as [|index column]; [done|].
  cbn [length Nat.eqb]. rewrite column_0_cons, result_bind_Ok.
  destruct (getitem (data self) index) as [obj|e]; reflexivity.
Qed.

(** C4. On a valid row path, [set_value] with an empty column path returns
    False and leaves the store, hence every object in [data], as it was. *)
Theorem set_value_title_column (self : ColumnDataModel) (row : list Z)
    (target : RowInfo) (value : val) (h : heap) :
  valid_path (row_info self) row target →
  set_value self row [] value h = (Ok false, h).
Proof.
  intros Hvalid%row_info_object_valid. unfold set_value. by rewrite Hvalid.
Qed.

(** C7. On a non-empty valid row path, [can_have_children] and
    [get_row_count] both read the child list of the row info the path leads
    to, and the first is True exactly when the second is not zero; on the
    empty row path [can_have_children] is True whatever the row infos. *)
Theorem can_have_children_iff_row_count (self : ColumnDataModel) :
  (∀ (row : list Z) (target : RowInfo),
     row ≠ [] →
     valid_path (row_info self) row target →
     ∃ (b : bool) (n : Z),
       can_have_children self row = Ok b
       ∧ get_row_count self row = Ok n
       ∧ n = Z.of_nat (length (rows target))
       ∧ (b = true ↔ n ≠ 0))
  ∧ can_have_children self [] = Ok true.
Proof.
  split; [|done].
  intros row target Hrow Hvalid%row_info_object_valid.
  exists (negb (length (rows target) =? 0)%nat), (Z.of_nat (length (rows target))).
  unfold can_have_children, get_row_count. rewrite Hvalid.
  destruct row as [|index row]; [done|]. cbn [length Nat.eqb].
  rewrite result_bind_Ok. repeat split; try done.
  - intros Hb%negb_true_iff%Nat.eqb_neq. lia.
  - intros Hn. apply negb_true_iff, Nat.eqb_neq. lia.
Qed.

End ColumnModelFacts.

(** ** Writing through a row info *)

Section RowInfoFacts.
Import ColumnModel.

Lemma split_nonempty sep s : split sep s ≠ [].
Proof.
  destruct s as [|c s]; simpl; [done|].
  destruct (Ascii.eqb c sep); [done|]. by destruct (split sep s).
Qed.

Lemma attrs_of_Some h object attrs :
  attrs_of h object = Some attrs →
  ∃ l, object = VRef l ∧ h !! l = Some (Instance attrs).
Proof.
  unfold attrs_of. destruct object as [| | | |l]; try done.
  destruct (h !! l) as [[attrs'|items]|] eqn:Hl; try done.
  intros [= <-]. by exists l.
Qed.

(** When the dotted name resolves, [xsetattr] writes the last name on the
    instance reached and changes nothing else. *)
Lemma xsetattr_names_resolved h object names value l last :
  resolves h object names = Some (l, last) →
  ∃ attrs,
    h !! l = Some (Instance attrs)
    ∧ xsetattr_names object names value h
      = (Ok (), <[l := Instance (<[last := value]> attrs)]> h).
Proof.
  revert object. induction names as [|name names IH]; intros object; [done|].
  destruct names as [|name' names].
  - cbn [resolves xsetattr_names]. destruct object as [| | | |l']; try done.
    destruct (attrs_of h (VRef l')) as [attrs|] eqn:Hattrs; [|done].
    intros [= <- <-]. exists attrs.
    apply attrs_of_Some in Hattrs as (? & [= <-] & Hl).
    split; [done|]. unfold setattr. by rewrite Hl.
  - cbn [resolves]. change (xsetattr_names object (name :: name' :: names) value)
      with (getattr object name ≫= λ o, xsetattr_names o (name' :: names) value).
    destruct (attrs_of h object) as [attrs|] eqn:Hattrs; [|done]. cbn [mbind option_bind].
    destruct (attrs !! name) as [object'|] eqn:Hname; [|done]. cbn [mbind option_bind].
    intros Hres. destruct (IH _ Hres) as (attrs' & Hl & Hset).
    exists attrs'. split; [done|].
    unfold mbind, M_bind, getattr. by rewrite Hattrs, Hname.
Qed.

(** When it does not, [xsetattr] raises AttributeError and changes nothing. *)
Lemma xsetattr_names_unresolved h object names value :
  names ≠ [] →
  resolves h object names = None →
  ∃ msg, xsetattr_names object names value h = (Raise (AttributeError msg), h).
Proof.
  revert object. induction names as [|name names IH]; intros object; [done|].
  intros _. destruct names as [|name' names].
  - cbn [resolves xsetattr_names]. unfold setattr, attrs_of.
    destruct object as [| | | |l']; eauto.
    destruct (h !! l') as [[attrs|items]|]; [done|eauto..].
  - cbn [resolves]. change (xsetattr_names object (name :: name' :: names) value)
      with (getattr object name ≫= λ o, xsetattr_names o (name' :: names) value).
    destruct (attrs_of h object) as [attrs|] eqn:Hattrs; cbn [mbind option_bind].
    + destruct (attrs !! name) as [object'|] eqn:Hname; cbn [mbind option_bind].
      * intros Hres. destruct (IH object' ltac:(done) Hres) as [msg Hraise].
        exists msg. unfold mbind, M_bind, getattr. by rewrite Hattrs, Hname.
      * intros _. unfold mbind, M_bind, getattr. rewrite Hattrs, Hname. eauto.
    + intros _. unfold mbind, M_bind, getattr. rewrite Hattrs. eauto.
Qed.

Lemma truthy_empty s : truthy s = false ↔ s = EmptyString.
Proof. by destruct s. Qed.

(** The methods on the attribute store are the methods over its helpers. *)
Lemma Row_set_value_over (self : RowInfo) (obj value : val) :
  Row.set_value self obj value
  = match self with
    | HasTraitsRowInfo _ _ name =>
        @RowInfoOver.HasTraitsRowInfo_set_value RowInfoOver.store_helpers
          name obj value
    | DictRowInfo _ _ name key =>
        @RowInfoOver.DictRowInfo_set_value RowInfoOver.store_helpers
          name key obj value
    end.
Proof. by destruct self. Qed.

Lemma Row_can_set_value_over (self : RowInfo) (obj : val) :
  Row.can_set_value self obj
  = match self with
    | HasTraitsRowInfo _ _ name =>
        @RowInfoOver.HasTraitsRowInfo_can_set_value RowInfoOver.store_helpers
          name obj
    | DictRowInfo _ _ name _ =>
        @RowInfoOver.DictRowInfo_can_set_value RowInfoOver.store_helpers
          name obj
    end.
Proof. by destruct self. Qed.

End RowInfoFacts.

Section RowInfoGuards.
Import RowInfoOver.
Context `{Helpers}.

(** C5, amended.  Whatever [xsetattr] does, [HasTraitsRowInfo.set_value]
    returns False and changes nothing when the value trait name is empty;
    otherwise it returns True when [xsetattr] on the name returns, with
    what [xsetattr] did to the store, and lets the exception of [xsetattr]
    pass when it raises.  [can_set_value] is True exactly when the name is
    not empty, and [set_value] returns False exactly when [can_set_value]
    is False. *)
Theorem HasTraitsRowInfo_set_value_guarded (name : string)
    (obj value : Value) (s : Store) :
  (name = EmptyString →
     HasTraitsRowInfo_set_value name obj value s = (Ok false, s))
  ∧ (name ≠ EmptyString →
       ∀ s', xsetattr obj name value s = (Ok (), s') →
             HasTraitsRowInfo_set_value name obj value s = (Ok true, s'))
  ∧ (name ≠ EmptyString →
       ∀ e s', xsetattr obj name value s = (Raise e, s') →
               HasTraitsRowInfo_set_value name obj value s = (Raise e, s'))
  ∧ (HasTraitsRowInfo_can_set_value name obj = true ↔ name ≠ EmptyString)
  ∧ ((HasTraitsRowInfo_set_value name obj value s).1 = Ok false
     ↔ HasTraitsRowInfo_can_set_value name obj = false).
Proof.
  unfold HasTraitsRowInfo_set_value, HasTraitsRowInfo_can_set_value.
  split; [by intros ->|].
  destruct name as [|c name]; cbn [truthy negb String.eqb].
  { repeat split; try done. }
  unfold mbind, M_bind.
  split; [by intros _ s' ->|]. split; [by intros _ e s' ->|].
  split; [done|].
  destruct (xsetattr obj (String c name) value s) as [[[]|e] s']; by cbn.
Qed.


End RowInfoGuards.

(** ** Value types *)

(** C3. Whatever the model, row, column and text, the default [set_text]
    raises DataViewSetError with the message "Cannot set value." and leaves
    the store as it was. *)
Theorem set_text_raises {Model : Type} (model : Model) (row column : list Z)
    (text : string) (h : heap) :
  ValueType.set_text model row column text h
  = (Raise (DataViewSetError "Cannot set value."), h).
Proof. reflexivity. Qed.

(** ** The colour dialog *)

Section ColorDialogFacts.
Import ColorDialogs.
Context `{Toolkit}.

(** C9. Whatever the toolkit, [get_color] builds the dialog from the
    [color] keyword alone and opens it; [parent] and [show_alpha] have no
    effect.  It returns the dialog's colour when [open()] yields [OK], and
    None for every other result. *)
Theorem get_color_spec (parent : Control) (color : Color) (show_alpha : bool)
    (w w' : World) (result : Z) (dialog : Dialog) :
  open (ColorDialog {[ "color" := AColor color ]}) w = (result, dialog, w') →
  (∀ (parent' : Control) (show_alpha' : bool),
     get_color parent' color show_alpha' w = get_color parent color show_alpha w)
  ∧ (result = OK →
       get_color parent color show_alpha w = (Some (dialog_color dialog), w'))
  ∧ (result ≠ OK → get_color parent color show_alpha w = (None, w')).
Proof.
  intros Hopen. unfold get_color. rewrite Hopen. repeat split.
  - intros ->. by rewrite Z.eqb_refl.
  - intros Hne%Z.eqb_neq. by rewrite Hne.
Qed.

End ColorDialogFacts.

(** ** The properties at work on the example data *)

Section Witnesses.
Import QtSelector ColumnModel ColorDialogs Example.

Lemma shim_without_backend_completes_witness :
  first_in ∅ = None
  ∧ environ no_backend !! "QT_API" = None
  ∧ first_in (importable no_backend) = None
  ∧ module_body no_backend (initial ∅)
    = (Normal, {| qt_api := None; sys_modules := ∅;
                  trace := [Import "PySide"; Import "PyQt5"; Import "PyQt4"] |}).
Proof.
  assert (first_in ∅ = None) as H1 by (vm_compute; reflexivity).
  assert (environ no_backend !! "QT_API" = None) as H2
    by (vm_compute; reflexivity).
  assert (first_in (importable no_backend) = None) as H3
    by (vm_compute; reflexivity).
  split; [exact H1|]. split; [exact H2|]. split; [exact H3|].
  exact (shim_without_backend_completes no_backend ∅ H1 H2 H3).
Defined.

Lemma invalid_QT_API_raises_RuntimeError_witness :
  first_in ∅ = None
  ∧ environ unknown_api !! "QT_API" = Some "pyqt6"
  ∧ ("pyqt6" ∉ ["pyside"; "pyqt5"; "pyqt"])
  ∧ ∃ msg st,
      module_body unknown_api (initial ∅) = (Raised (RuntimeError msg), st)
      ∧ trace st = []
      ∧ sys_modules st = ∅.
Proof.
  assert (first_in ∅ = None) as H1 by (vm_compute; reflexivity).
  assert (environ unknown_api !! "QT_API" = Some "pyqt6") as H2
    by (vm_compute; reflexivity).
  assert ("pyqt6" ∉ ["pyside"; "pyqt5"; "pyqt"]) as H3.
  { rewrite !not_elem_of_cons. repeat split; try done. apply not_elem_of_nil. }
  split; [exact H1|]. split; [exact H2|]. split; [exact H3|].
  exact (invalid_QT_API_raises_RuntimeError unknown_api ∅ "pyqt6" H1 H2 H3).
Defined.

Lemma street_valid : valid_path row_info [1; 0] street.
Proof. repeat econstructor. Qed.

Lemma get_value_follows_row_path_witness :
  valid_path (ColumnModel.row_info model) [1; 0] street
  ∧ get_value model [1; 0] [0] store = Row.get_value street (VRef person) store
  ∧ get_value model [1; 0] [] store = (Ok (VStr "Street"), store).
Proof.
  split; [exact street_valid|]. split.
  - exact (get_value_follows_row_path model [1; 0] [0] street store street_valid).
  - exact (get_value_follows_row_path model [1; 0] [] street store street_valid).
Defined.

Lemma set_value_title_column_witness :
  valid_path (ColumnModel.row_info model) [1; 0] street
  ∧ set_value model [1; 0] [] (VStr "Elm Street") store = (Ok false, store).
Proof.
  split; [exact street_valid|].
  exact (set_value_title_column model [1; 0] street (VStr "Elm Street") store
           street_valid).
Defined.

Lemma can_have_children_iff_row_count_witness :
  [1; 0] ≠ []
  ∧ valid_path (ColumnModel.row_info model) [1; 0] street
  ∧ ∃ (b : bool) (n : Z),
      can_have_children model [1; 0] = Ok b
      ∧ get_row_count model [1; 0] = Ok n
      ∧ n = Z.of_nat (length (rows street))
      ∧ (b = true ↔ n ≠ 0).
Proof.
  assert ([1; 0] ≠ @nil Z) as Hrow by discriminate.
  split; [exact Hrow|]. split; [exact street_valid|].
  exact (proj1 (can_have_children_iff_row_count model) [1; 0] street Hrow
           street_valid).
Defined.
Lemma street_set :
  @RowInfoOver.xsetattr RowInfoOver.store_helpers (VRef person)
    "address.street" (VStr "Elm Street") store
  = (Ok (),
     <[address := Instance (<["street" := VStr "Elm Street"]>
                              {[ "street" := VStr "Main Street";
                                 "city" := VStr "Austin";
                                 "country" := VStr "USA" ]})]> store).
Proof. vm_compute. reflexivity. Qed.

Lemma age_rejected :
  @RowInfoOver.xsetattr RowInfoOver.validating_helpers (VRef person)
    "age" (VStr "old") store
  = (Raise (TraitError "The 'age' trait must be an integer"), store).
Proof. reflexivity. Qed.

Lemma HasTraitsRowInfo_set_value_guarded_witness :
  (@RowInfoOver.HasTraitsRowInfo_set_value RowInfoOver.store_helpers
     EmptyString (VRef person) (VStr "Bob") store
   = (Ok false, store))
  ∧ "address.street" ≠ EmptyString
  ∧ (@RowInfoOver.HasTraitsRowInfo_set_value RowInfoOver.store_helpers
       "address.street" (VRef person) (VStr "Elm Street") store
     = (Ok true,
        <[address := Instance (<["street" := VStr "Elm Street"]>
                                 {[ "street" := VStr "Main Street";
                                    "city" := VStr "Austin";
                                    "country" := VStr "USA" ]})]> store))
  ∧ "age" ≠ EmptyString
  ∧ (@RowInfoOver.HasTraitsRowInfo_set_value RowInfoOver.validating_helpers
       "age" (VRef person) (VStr "old") store
     = (Raise (TraitError "The 'age' trait must be an integer"), store)).
Proof.
  assert ("address.street" ≠ EmptyString) as Hstreet by discriminate.
  assert ("age" ≠ EmptyString) as Hage by discriminate.
  split.
  { exact (proj1 (@HasTraitsRowInfo_set_value_guarded
                    RowInfoOver.store_helpers EmptyString (VRef person)
                    (VStr "Bob") store) eq_refl). }
  split; [exact Hstreet|]. split.
  { exact (proj1 (proj2 (@HasTraitsRowInfo_set_value_guarded
                    RowInfoOver.store_helpers "address.street" (VRef person)
                    (VStr "Elm Street") store)) Hstreet _ street_set). }
  split; [exact Hage|].
  exact (proj1 (proj2 (proj2 (@HasTraitsRowInfo_set_value_guarded
                  RowInfoOver.validating_helpers "age" (VRef person)
                  (VStr "old") store))) Hage _ _ age_rejected).
Defined.

(** [HasTraitsRowInfo.set_value] does not return True for every object and
    every non-empty name: on a person with no attribute [missing], the
    name [missing.street] makes [xsetattr] raise AttributeError, which
    passes through, and nothing is written. *)
Lemma HasTraitsRowInfo_set_value_not_always_True :
  Row.set_value (HasTraitsRowInfo "Street" [] "missing.street") (VRef person)
    (VStr "Elm Street") store
  = (Raise (AttributeError "object has no attribute 'missing'"), store)
  ∧ ¬ (∀ (self : RowInfo) (obj value : val) (h : heap),
         (∃ title rows name,
            self = HasTraitsRowInfo title rows name ∧ name ≠ EmptyString) →
         (Row.set_value self obj value h).1 = Ok true).
Proof.
  assert (Row.set_value (HasTraitsRowInfo "Street" [] "missing.street")
            (VRef person) (VStr "Elm Street") store
          = (Raise (AttributeError "object has no attribute 'missing'"), store))
    as Hraise by (vm_compute; reflexivity).
  split; [exact Hraise|]. intros Hall.
  specialize (Hall (HasTraitsRowInfo "Street" [] "missing.street")
                (VRef person) (VStr "Elm Street") store).
  rewrite Hraise in Hall. discriminate Hall. by eexists _, _, _.
Qed.




Lemma get_color_spec_witness :
  @open scripted (ColorDialog {[ "color" := AColor 5 ]}) [(10, 9)]
  = (10, <["color" := AColor 9]> {[ "color" := AColor 5 ]}, [])
  ∧ (∀ (parent' : Z) (show_alpha' : bool),
       @get_color scripted parent' 5 show_alpha' [(10, 9)]
       = @get_color scripted 1 5 true [(10, 9)])
  ∧ (10 = @OK scripted →
       @get_color scripted 1 5 true [(10, 9)]
       = (Some (@dialog_color scripted
                  (<["color" := AColor 9]> {[ "color" := AColor 5 ]})), []))
  ∧ (10 ≠ @OK scripted → @get_color scripted 1 5 true [(10, 9)] = (None, [])).
Proof.
  assert (@open scripted (ColorDialog {[ "color" := AColor 5 ]}) [(10, 9)]
          = (10, <["color" := AColor 9]> {[ "color" := AColor 5 ]}, []))
    as Hopen by reflexivity.
  split; [exact Hopen|].
  exact (@get_color_spec scripted 1 5 true [(10, 9)] [] 10 _ Hopen).
Defined.


End Witnesses.

(** * Further properties of the modelled code *)

Set Warnings "-clear-no-such-hyp".

(** ** The selector: the whole module body *)

Section QtSelectorBody.
Import QtSelector.
Local Open Scope list_scope.

Lemma first_in_0 (S : gset string) :
  "PySide" ∈ S → first_in S = Some (0%nat, ("pyside", "PySide")).
Proof. intros H. unfold first_in, QtAPIs. cbn. by rewrite decide_True. Qed.

Lemma first_in_1 (S : gset string) :
  "PySide" ∉ S → "PyQt5" ∈ S → first_in S = Some (1%nat, ("pyqt5", "PyQt5")).
Proof.
  intros H0 H1. unfold first_in, QtAPIs. cbn.
  rewrite decide_False by done. by rewrite decide_True.
Qed.

Lemma first_in_2 (S : gset string) :
  "PySide" ∉ S → "PyQt5" ∉ S → "PyQt4" ∈ S →
  first_in S = Some (2%nat, ("pyqt", "PyQt4")).
Proof.
  intros H0 H1 H2. unfold first_in, QtAPIs. cbn.
  rewrite !decide_False by done. by rewrite decide_True.
Qed.

Lemma trace_log (st : state) (ev : event) : trace (log ev st) = trace st ++ [ev].
Proof. reflexivity. Qed.

(** [prepare_pyqt4] with [sip] already loaded, importable, or missing. *)
Lemma prepare_pyqt4_loaded P st :
  "sip" ∈ sys_modules st →
  prepare_pyqt4 P st
  = (Normal, {| qt_api := qt_api st; sys_modules := sys_modules st;
                trace := trace st ++ Import "sip" :: sip_calls |}).
Proof.
  intros Hsip. unfold prepare_pyqt4, seq, import_module, setapi.
  cbn [sys_modules log qt_api trace]. rewrite bool_decide_eq_true_2 by done.
  unfold log. cbn [sys_modules qt_api trace]. by rewrite <- !app_assoc.
Qed.

Lemma prepare_pyqt4_importable P st :
  "sip" ∉ sys_modules st → "sip" ∈ importable P →
  prepare_pyqt4 P st
  = (Normal, {| qt_api := qt_api st; sys_modules := {["sip"]} ∪ sys_modules st;
                trace := trace st ++ Import "sip" :: sip_calls |}).
Proof.
  intros Hsip Himp. unfold prepare_pyqt4, seq, import_module, setapi.
  cbn [sys_modules log qt_api trace]. rewrite bool_decide_eq_false_2 by done.
  rewrite bool_decide_eq_true_2 by done.
  unfold log. cbn [sys_modules qt_api trace]. by rewrite <- !app_assoc.
Qed.

Lemma prepare_pyqt4_missing P st :
  "sip" ∉ sys_modules st → "sip" ∉ importable P →
  prepare_pyqt4 P st
  = (Raised (ImportError "No module named 'sip'"),
     {| qt_api := qt_api st; sys_modules := sys_modules st;
        trace := trace st ++ [Import "sip"] |}).
Proof.
  intros Hsip Himp. unfold prepare_pyqt4, seq, import_module.
  cbn [sys_modules log qt_api trace].
  by rewrite !bool_decide_eq_false_2 by done.
Qed.

(** The three ways [prepare_pyqt4] can end. *)
Lemma prepare_pyqt4_cases P st :
  (∃ modules,
     prepare_pyqt4 P st
     = (Normal, {| qt_api := qt_api st; sys_modules := modules;
                   trace := trace st ++ Import "sip" :: sip_calls |})
     ∧ ("sip" ∈ sys_modules st ∨ "sip" ∈ importable P)
     ∧ modules = {["sip"]} ∪ sys_modules st)
  ∨ (prepare_pyqt4 P st
     = (Raised (ImportError "No module named 'sip'"),
        {| qt_api := qt_api st; sys_modules := sys_modules st;
           trace := trace st ++ [Import "sip"] |})
     ∧ ("sip" ∉ sys_modules st) ∧ ("sip" ∉ importable P)).
Proof.
  destruct (decide ("sip" ∈ sys_modules st)) as [Hsip|Hsip].
  - left. exists (sys_modules st). split; [by apply prepare_pyqt4_loaded|].
    split; [by left|]. symmetry. apply subseteq_union_1_L. set_solver.
  - destruct (decide ("sip" ∈ importable P)) as [Himp|Himp].
    + left. eexists. split; [by apply prepare_pyqt4_importable|]. auto.
    + right. split; [by apply prepare_pyqt4_missing|]. auto.
Qed.

(** The module body is the selection followed, for ['pyqt'], by
    [prepare_pyqt4]. *)
Lemma module_body_selection P loaded :
  module_body P (initial loaded)
  = match selection P loaded with
    | (Normal, st) =>
        if bool_decide (qt_api st = Some "pyqt") then prepare_pyqt4 P st
        else (Normal, st)
    | other => other
    end.
Proof.
  unfold module_body, seq, if_, pass. rewrite select_qt_api_selection.
  by destruct (selection P loaded) as [[| | |e] st].
Qed.

Lemma selection_selected P loaded :
  selected P loaded (selection P loaded).1 (selection P loaded).2.
Proof.
  unfold selection.
  destruct (first_in loaded) as [[i [api module]]|] eqn:Hloaded.
  { by eapply selected_loaded. }
  destruct (environ P !! "QT_API") as [v|] eqn:He.
  { case_bool_decide; [by apply selected_environ|by apply selected_invalid]. }
  destruct (first_in (importable P)) as [[i [api module]]|] eqn:Himp.
  - by apply selected_imported.
  - by apply selected_none.
Qed.

Lemma module_body_selected P loaded c st :
  module_body P (initial loaded) = (c, st) →
  ∃ c0 st0,
    selected P loaded c0 st0
    ∧ match c0 with
      | Normal =>
          if bool_decide (qt_api st0 = Some "pyqt")
          then prepare_pyqt4 P st0 = (c, st)
          else (c, st) = (Normal, st0)
      | _ => (c, st) = (c0, st0)
      end.
Proof.
  rewrite module_body_selection. intros Hbody.
  pose proof (selection_selected P loaded) as Hsel.
  destruct (selection P loaded) as [c0 st0]. exists c0, st0.
  split; [done|]. destruct c0; try done. by case_bool_decide.
Qed.

Ltac selector_cases Hbody :=
  apply module_body_selected in Hbody as (c0 & st0 & Hsel & Hbody);
  destruct Hsel as [i api module Hloaded|v Hloaded He Hv|v Hloaded He Hv
                   |i api module Hloaded He Himp|Hloaded He Himp];
  cbn [qt_api] in Hbody.

Ltac pyqt_cases Hbody :=
  first
    [ case_bool_decide;
      [ match type of Hbody with
        | prepare_pyqt4 ?P ?st = _ =>
            destruct (prepare_pyqt4_cases P st)
              as [(modules & Hprep & Hsip & ->)|(Hprep & Hsip & Hsip')];
            rewrite Hprep in Hbody; cbn [qt_api sys_modules trace] in *
        end
      | ]
    | idtac ];
  simplify_eq; cbn [qt_api sys_modules trace] in *.

(** X1.  Importing the module raises ImportError only through [import sip]:
    when 'pyqt' has been chosen and [sip] can neither be found in
    [sys.modules] nor imported.  The failure of every binding to import
    never surfaces as an ImportError. *)
Theorem ImportError_only_from_sip (P : process) (loaded : gset string)
    (msg : string) (st : state) :
  module_body P (initial loaded) = (Raised (ImportError msg), st) →
  msg = "No module named 'sip'"
  ∧ qt_api st = Some "pyqt"
  ∧ ("sip" ∉ importable P)
  ∧ ("sip" ∉ sys_modules st)
  ∧ last (trace st) = Some (Import "sip").
Proof.
  intros Hbody. selector_cases Hbody; pyqt_cases Hbody;
    by rewrite last_snoc.
Qed.

(** X2.  When the import of the module succeeds, [qt_api] is one of the three
    API names, or it is None, and None only in a process with no binding
    loaded, no [QT_API] and no binding to import. *)
Theorem normal_completion_choice (P : process) (loaded : gset string)
    (st : state) :
  module_body P (initial loaded) = (Normal, st) →
  match qt_api st with
  | Some api => api ∈ ["pyside"; "pyqt5"; "pyqt"]
  | None =>
      first_in loaded = None
      ∧ environ P !! "QT_API" = None
      ∧ first_in (importable P) = None
  end.
Proof.
  intros Hbody. selector_cases Hbody; pyqt_cases Hbody; cbn [qt_api];
    try done;
    repeat match goal with
           | H : first_in _ = Some _ |- _ =>
               apply first_in_Some in H as [?|[?|?]]; destruct_and!; subst
           end;
    rewrite !elem_of_cons; auto.
Qed.

(** X3.  Running the selection again, on the [sys.modules] it left behind, ends
    the same way with the same [qt_api] and the same [sys.modules], and,
    when an API had been chosen, without attempting any import. *)
Theorem selection_stable_on_rerun (P : process) (loaded : gset string)
    (c : completion) (st : state) :
  select_qt_api P (initial loaded) = (c, st) →
  ∃ st',
    select_qt_api P (initial (sys_modules st)) = (c, st')
    ∧ qt_api st' = qt_api st
    ∧ sys_modules st' = sys_modules st
    ∧ (qt_api st ≠ None → trace st' = []).
Proof.
  rewrite select_qt_api_selection. intros Hrun.
  pose proof (selection_selected P loaded) as Hsel. rewrite Hrun in Hsel.
  cbn [fst snd] in Hsel.
  destruct Hsel as [i api module Hloaded|v Hloaded He Hv|v Hloaded He Hv
                   |i api module Hloaded He Himp|Hloaded He Himp];
    cbn [sys_modules qt_api trace].
  - eexists. split; [by eapply select_loaded|]. by cbn.
  - eexists. split.
    { apply select_environ_valid; [done..|]. by apply elem_of_api_names. }
    by cbn.
  - eexists. split.
    { apply select_environ_invalid; [done..|]. by rewrite elem_of_api_names. }
    by cbn.
  - apply first_in_None in Hloaded as (? & ? & ?).
    apply first_in_Some in Himp as [?|[?|?]]; destruct_and!; subst.
    + eexists. split.
      { eapply select_loaded, first_in_0.
        rewrite ?elem_of_union, ?elem_of_singleton; intuition congruence. }
      by cbn.
    + eexists. split.
      { eapply select_loaded, first_in_1;
          rewrite ?elem_of_union, ?elem_of_singleton; intuition congruence. }
      by cbn.
    + eexists. split.
      { eapply select_loaded, first_in_2;
          rewrite ?elem_of_union, ?elem_of_singleton; intuition congruence. }
      by cbn.
  - eexists. split.
    { rewrite select_environ_unset by done. by rewrite Himp. }
    by cbn.
Qed.

(** X4.  [sip.setapi] is called only when the import succeeds with 'pyqt'
    chosen, and then exactly the seven calls of [prepare_pyqt4], each with
    version 2, in the order of the source. *)
Theorem setapi_calls_only_for_pyqt (P : process) (loaded : gset string) :
  let out := module_body P (initial loaded) in
  filter (λ ev, is_SetApi ev) (trace out.2)
  = match out.1, qt_api out.2 with
    | Normal, Some api => if String.eqb api "pyqt" then sip_calls else []
    | _, _ => []
    end.
Proof.
  destruct (module_body P (initial loaded)) as [c st] eqn:Hbody.
  cbn [fst snd]. selector_cases Hbody; pyqt_cases Hbody; cbn [qt_api trace];
    repeat match goal with
           | H : first_in _ = Some _ |- _ =>
               apply first_in_Some in H as [?|[?|?]]; destruct_and!; subst
           | H : _ ∈ _ :: _ |- _ => apply elem_of_cons in H as [->|H]
           | H : _ ∈ [] |- _ => by apply elem_of_nil in H
           end;
    try done.
Qed.

End QtSelectorBody.

(** ** The row-info tree *)

Section RowInfoTree.
Import ColumnModel.
Local Open Scope list_scope.

(** Induction on a row info with the hypothesis for every row below it. *)
Lemma RowInfo_nested_ind (P : RowInfo → Prop) :
  (∀ title rows value,
     Forall P rows → P (HasTraitsRowInfo title rows value)) →
  (∀ title rows value key,
     Forall P rows → P (DictRowInfo title rows value key)) →
  ∀ row_info, P row_info.
Proof.
  intros Hht Hdict. fix IH 1. intros row_info.
  destruct row_info as [t rs v|t rs v k].
  - apply Hht. induction rs as [|r rs IHrs]; constructor.
    + apply IH.
    + apply IHrs.
  - apply Hdict. induction rs as [|r rs IHrs]; constructor.
    + apply IH.
    + apply IHrs.
Qed.

Lemma iter_unfold self :
  __iter__ self = self :: (row ← rows self; __iter__ row).
Proof. by destruct self. Qed.

(** A row of a row info is reached by a subscript that is not negative. *)
Lemma elem_of_getitem {A : Type} (l : list A) (a : A) :
  a ∈ l ↔ ∃ i, 0 ≤ i ∧ getitem l i = Ok a.
Proof.
  rewrite list_elem_of_lookup. split.
  - intros [n Hn]. exists (Z.of_nat n). split; [lia|].
    apply getitem_Ok. left. split; [lia|by rewrite Nat2Z.id].
  - intros (i & Hi & [[_ Hl]|[? _]]%getitem_Ok); [eauto|lia].
Qed.

Lemma getitem_elem_of {A : Type} (l : list A) (i : Z) (a : A) :
  getitem l i = Ok a → a ∈ l.
Proof.
  intros [[_ Hl]|(_ & _ & Hl)]%getitem_Ok;
    apply list_elem_of_lookup; eauto.
Qed.

(** X6.  Iterating over a row info yields exactly the row infos that row paths
    address from it, and non-negative indices suffice to address them. *)
Theorem iter_yields_addressable_rows (root target : RowInfo) :
  (target ∈ __iter__ root
   → ∃ row, Forall (λ i, 0 ≤ i) row ∧ valid_path root row target)
  ∧ (∀ row, valid_path root row target → target ∈ __iter__ root).
Proof.
  split.
  - revert target.
    induction root as [t rs v IH|t rs v k IH] using RowInfo_nested_ind;
      intros target; rewrite iter_unfold; cbn [ColumnModel.rows];
      intros [->|Hin]%elem_of_cons.
    1,3: exists []; split; constructor.
    all: apply list_elem_of_bind in Hin as (child & Htarget & Hchild);
      rewrite Forall_forall in IH;
      destruct (IH child Hchild target Htarget) as (row & Hpos & Hrow);
      apply elem_of_getitem in Hchild as (i & Hi & Hget);
      exists (i :: row); (split; [by constructor|by econstructor]).
  - intros row Hvalid.
    induction Hvalid as [root|root child target index row Hget _ IH].
    + rewrite iter_unfold. apply elem_of_cons. by left.
    + rewrite iter_unfold. apply elem_of_cons. right.
      apply list_elem_of_bind. exists child. split; [done|].
      by eapply getitem_elem_of.
Qed.

(** [l.index(x)] finds a position of [x], counted from the front, exactly
    when [x] is in the list. *)
Lemma index_Some {A : Type} `{EqDecision A} (l : list A) (x : A) (i : Z) :
  index l x = Some i → 0 ≤ i ∧ getitem l i = Ok x.
Proof.
  revert i. induction l as [|y l IH]; intros i; cbn [index]; [done|].
  destruct (decide (y = x)) as [->|Hne].
  - intros [= <-]. split; [done|]. apply getitem_Ok. by left.
  - destruct (index l x) as [j|]; [|done]. intros [= <-].
    destruct (IH j eq_refl) as [Hj [[_ Hl]|[? _]]%getitem_Ok]; [|lia].
    split; [lia|]. apply getitem_Ok. left. split; [lia|].
    replace (Z.to_nat (Z.succ j)) with (S (Z.to_nat j)) by lia. done.
Qed.

Lemma index_None {A : Type} `{EqDecision A} (l : list A) (x : A) :
  index l x = None ↔ x ∉ l.
Proof.
  induction l as [|y l IH]; cbn [index].
  - split; [intros _; apply not_elem_of_nil|done].
  - rewrite not_elem_of_cons. destruct (decide (y = x)) as [->|Hne].
    + split; [done|]. by intros [? _].
    + destruct (index l x) as [j|]; cbn.
      * split; [done|]. intros [_ Hl]. by apply IH in Hl.
      * split; [|done]. intros _. split; [done|]. by apply IH.
Qed.

End RowInfoTree.

(** ** The observers, on row infos as objects *)

Section RowObjectFacts.
Import RowObjects.
Local Open Scope list_scope.

Lemma rows_index_Ok (rows : list loc) (row : loc) (i : Z) :
  rows_index rows row = Ok i → getitem rows i = Ok row.
Proof.
  unfold rows_index. destruct (index rows row) as [j|] eqn:Hindex; [|done].
  intros [= <-]. by apply index_Some in Hindex as [_ Hget].
Qed.

Lemma rows_index_elem_of (rows : list loc) (row : loc) :
  row ∈ rows → ∃ i, rows_index rows row = Ok i.
Proof.
  intros Hrow. unfold rows_index.
  destruct (index rows row) as [j|] eqn:Hindex; [by exists j|].
  by apply index_None in Hindex.
Qed.


Lemma row_item_updated_step (R : row_store) (self row origin : loc)
    (part : string) (row_index : list Z) :
  row ∈ rows_of R self →
  row_info_from R row row_index = Ok origin →
  ∃ i,
    row_item_updated R self row (origin, part, row_index)
    = Ok (origin, part, i :: row_index)
    ∧ getitem (rows_of R self) i = Ok row
    ∧ row_info_from R self (i :: row_index) = Ok origin.
Proof.
  intros [i Hi]%rows_index_elem_of Hfrom. exists i.
  unfold row_item_updated. rewrite Hi.
  apply rows_index_Ok in Hi. split; [done|]. split; [done|].
  cbn [row_info_from]. by rewrite Hi.
Qed.


(** X8.  An [updated] event that travels from a row info up a chain of
    ancestors arrives at the top with a row index that leads, from the top,
    to the row info that fired it, one index for each ancestor passed. *)
Theorem bubble_addresses_origin (R : row_store) (ancestors : list loc)
    (row origin : loc) (part : string) (row_index : list Z) :
  chain R ancestors row →
  row_info_from R row row_index = Ok origin →
  ∃ row_index',
    bubble R ancestors row (origin, part, row_index)
    = Ok (origin, part, row_index')
    ∧ row_info_from R (default row (last ancestors)) row_index' = Ok origin
    ∧ length row_index' = (length ancestors + length row_index)%nat.
Proof.
  revert row row_index.
  induction ancestors as [|parent ancestors IH]; intros row row_index.
  - intros _ Hfrom. by exists row_index.
  - intros [Hrow Hchain] Hfrom. cbn [bubble].
    destruct (row_item_updated_step R parent row origin part row_index Hrow Hfrom)
      as (i & -> & _ & Hfrom'). rewrite result_bind_Ok.
    destruct (IH parent (i :: row_index) Hchain Hfrom')
      as (row_index' & Hbubble & Htop & Hlen).
    exists row_index'. split; [done|]. split.
    + rewrite last_cons. by destruct (last ancestors).
    + rewrite Hlen. cbn. lia.
Qed.

End RowObjectFacts.

(** ** Reading and writing through the column data model *)

Section ColumnModelAccess.
Import ColumnModel.
Local Open Scope list_scope.

(** A subscript succeeds exactly within [-len(l), len(l)) and raises
    IndexError outside it. *)
Lemma getitem_in_range {A : Type} (l : list A) (i : Z) :
  - Z.of_nat (length l) ≤ i < Z.of_nat (length l) → ∃ a, getitem l i = Ok a.
Proof.
  intros Hi. destruct (decide (0 ≤ i)) as [Hpos|Hneg].
  - destruct (lookup_lt_is_Some_2 l (Z.to_nat i)) as [a Ha]; [lia|].
    exists a. apply getitem_Ok. by left.
  - destruct (lookup_lt_is_Some_2 l (Z.to_nat (i + Z.of_nat (length l))))
      as [a Ha]; [lia|].
    exists a. apply getitem_Ok. right. split; [lia|]. split; [lia|done].
Qed.

Lemma getitem_out_of_range {A : Type} (l : list A) (i : Z) :
  ¬ (- Z.of_nat (length l) ≤ i < Z.of_nat (length l)) →
  getitem l i = Raise (IndexError "list index out of range").
Proof.
  intros Hi. destruct (getitem l i) as [a|e] eqn:Hget.
  - apply getitem_Ok in Hget as [[? Hl]|(? & ? & Hl)];
      apply lookup_lt_Some in Hl; lia.
  - revert Hget. unfold getitem.
    repeat case_match; congruence.
Qed.

Lemma getitem_Raise {A : Type} (l : list A) (i : Z) (e : exn) :
  getitem l i = Raise e → e = IndexError "list index out of range".
Proof. unfold getitem. repeat case_match; congruence. Qed.

Lemma row_info_from_Raise row_info row e :
  row_info_from row_info row = Raise e →
  e = IndexError "list index out of range".
Proof.
  revert row_info. induction row as [|index row IH]; intros row_info; [done|].
  cbn [row_info_from].
  destruct (getitem (rows row_info) index) as [child|e'] eqn:Hget.
  - rewrite result_bind_Ok. apply IH.
  - rewrite result_bind_Raise. intros [= <-]. by eapply getitem_Raise.
Qed.

Lemma row_info_object_invalid self row :
  (∀ target, ¬ valid_path (row_info self) row target) →
  _row_info_object self row = Raise (IndexError "list index out of range").
Proof.
  intros Hinvalid. unfold _row_info_object.
  destruct (row_info_from (row_info self) row) as [target|e] eqn:Hrun.
  - by apply row_info_from_valid, Hinvalid in Hrun.
  - by rewrite (row_info_from_Raise _ _ _ Hrun).
Qed.

(** X9.  A row path that is not valid makes every method that follows it raise
    IndexError, before anything is read or written. *)
Theorem invalid_row_path_raises_IndexError (self : ColumnDataModel)
    (row column : list Z) (value : val) (h : heap) :
  (∀ target, ¬ valid_path (row_info self) row target) →
  ∃ msg,
    get_row_count self row = Raise (IndexError msg)
    ∧ can_have_children self row = Raise (IndexError msg)
    ∧ get_value self row column h = (Raise (IndexError msg), h)
    ∧ set_value self row column value h = (Raise (IndexError msg), h).
Proof.
  intros Hinvalid. eexists.
  unfold get_row_count, can_have_children, get_value, set_value.
  rewrite (row_info_object_invalid self row Hinvalid).
  destruct row as [|index row].
  - destruct (Hinvalid (row_info self)). constructor.
  - done.
Qed.

Lemma row_get_value_store target obj h : (Row.get_value target obj h).2 = h.
Proof.
  destruct target as [t rs name|t rs name key]; [done|].
  cbn [Row.get_value]. unfold Row.DictRowInfo_get_value.
  unfold mbind, M_bind, reads, dict_get.
  repeat case_match; by simplify_eq.
Qed.

(** X10.  Reading never writes: whatever the row and column paths, valid or not,
    and whatever the row info, [get_value] leaves the store as it was. *)
Theorem get_value_read_only (self : ColumnDataModel) (row column : list Z)
    (h : heap) :
  (get_value self row column h).2 = h.
Proof.
  unfold get_value.
  destruct (_row_info_object self row) as [target|e]; [|done].
  rewrite M_bind_lift_Ok. destruct (length column =? 0)%nat; [done|].
  destruct (index ← column_0 column; getitem (data self) index) as [obj|e];
    [|done].
  rewrite M_bind_lift_Ok. apply row_get_value_store.
Qed.

(** Following [row1 ++ row2] is following [row1] and then [row2]. *)
Lemma row_info_from_app row_info row1 row2 :
  row_info_from row_info (row1 ++ row2)
  = mid ← row_info_from row_info row1; row_info_from mid row2.
Proof.
  revert row_info. induction row1 as [|index row1 IH]; intros row_info; [done|].
  cbn [app row_info_from].
  destruct (getitem (rows row_info) index) as [child|e]; [|done].
  rewrite !result_bind_Ok. apply IH.
Qed.

(** X11.  The path of a row info below another composes with the row paths from
    it: the model rooted at the row info that [row1] leads to answers at
    [row2] what the whole model answers at [row1 ++ row2]. *)
Theorem subtree_model (self : ColumnDataModel) (row1 row2 column : list Z)
    (mid : RowInfo) (value : val) (h : heap) :
  valid_path (row_info self) row1 mid →
  let sub := {| data := data self; row_info := mid |} in
  _row_info_object self (row1 ++ row2) = _row_info_object sub row2
  ∧ get_row_count self (row1 ++ row2) = get_row_count sub row2
  ∧ get_value self (row1 ++ row2) column h = get_value sub row2 column h
  ∧ set_value self (row1 ++ row2) column value h
    = set_value sub row2 column value h.
Proof.
  intros Hmid%row_info_from_valid sub.
  assert (_row_info_object self (row1 ++ row2) = _row_info_object sub row2)
    as Heq.
  { unfold _row_info_object. by rewrite row_info_from_app, Hmid. }
  unfold get_row_count, get_value, set_value. by rewrite Heq.
Qed.

End ColumnModelAccess.

(** ** What a write changes, and reading it back *)

Section Writes.
Import ColumnModel.
Local Open Scope list_scope.

(** A write that [xsetattr] completes updates one attribute of one instance
    of the store; one that it does not complete raises and changes
    nothing. *)
Lemma xsetattr_names_outcome object names value h :
  (∃ l attrs name,
     h !! l = Some (Instance attrs)
     ∧ resolves h object names = Some (l, name)
     ∧ xsetattr_names object names value h
       = (Ok (), <[l := Instance (<[name := value]> attrs)]> h))
  ∨ (∃ e, xsetattr_names object names value h = (Raise e, h)).
Proof.
  destruct (resolves h object names) as [[l name]|] eqn:Hres.
  - left. destruct (xsetattr_names_resolved _ _ _ value _ _ Hres)
      as (attrs & Hl & Hset). by exists l, attrs, name.
  - right. destruct names as [|name names]; [by eexists|].
    destruct (xsetattr_names_unresolved h object (name :: names) value)
      as [msg Hraise]; [done..|]. by eexists.
Qed.

Lemma row_set_value_outcome target obj value h :
  (∃ l attrs name,
     h !! l = Some (Instance attrs)
     ∧ Row.set_value target obj value h
       = (Ok true, <[l := Instance (<[name := value]> attrs)]> h))
  ∨ (∃ l items key,
       h !! l = Some (Dict items)
       ∧ Row.set_value target obj value h
         = (Ok true, <[l := Dict (<[key := value]> items)]> h))
  ∨ (∃ r, Row.set_value target obj value h = (r, h) ∧ r ≠ Ok true).
Proof.
  destruct target as [t rs name|t rs name key]; cbn [Row.set_value].
  - unfold Row.HasTraitsRowInfo_set_value.
    destruct (truthy name); cbn [negb]; [|right; right; by eexists].
    unfold xsetattr, mbind, M_bind.
    destruct (xsetattr_names_outcome obj (split "." name) value h)
      as [(l & attrs & last & Hl & _ & ->)|[e ->]].
    + left. by exists l, attrs, last.
    + right; right. by eexists.
  - unfold Row.DictRowInfo_set_value, mbind, M_bind, reads, setitem.
    destruct (xgetattr h obj name VNone) as [| | | |l];
      try (right; right; by eexists).
    destruct (h !! l) as [[attrs|items]|] eqn:Hl;
      try (right; right; by eexists).
    right; left. by exists l, items, key.
Qed.

(** X12.  A write through the model either returns True, having replaced one
    attribute of one instance or one item of one dictionary that was in the
    store, or it leaves the whole store as it was: a write that returns
    False or raises has changed nothing, and no write adds or removes an
    object. *)
Theorem set_value_changes_one_object (self : ColumnDataModel)
    (row column : list Z) (value : val) (h : heap) :
  let out := set_value self row column value h in
  (out.1 ≠ Ok true → out.2 = h)
  ∧ (out.1 = Ok true →
       ∃ l,
         (∃ attrs name,
            h !! l = Some (Instance attrs)
            ∧ out.2 = <[l := Instance (<[name := value]> attrs)]> h)
         ∨ (∃ items key,
              h !! l = Some (Dict items)
              ∧ out.2 = <[l := Dict (<[key := value]> items)]> h))
  ∧ dom out.2 = dom h.
Proof.
  cbn zeta. unfold set_value.
  destruct (_row_info_object self row) as [target|e]; [|done].
  rewrite M_bind_lift_Ok. destruct (length column =? 0)%nat; [done|].
  destruct (index ← column_0 column; getitem (data self) index) as [obj|e];
    [|done].
  rewrite M_bind_lift_Ok.
  destruct (row_set_value_outcome target obj value h)
    as [(l & attrs & name & Hl & ->)|[(l & items & key & Hl & ->)|(r & -> & Hr)]];
    cbn [fst snd].
  - split; [done|]. split; [intros _; exists l; left; eauto|].
    rewrite dom_insert_L. apply elem_of_dom_2 in Hl. set_solver.
  - split; [done|]. split; [intros _; exists l; right; eauto|].
    rewrite dom_insert_L. apply elem_of_dom_2 in Hl. set_solver.
  - done.
Qed.

Lemma xgetattr_names_cons h object name names default :
  names ≠ [] →
  xgetattr_names h object (name :: names) default
  = (let object := getattr_or h object name VNone in
     if is_None object then default
     else xgetattr_names h object names default).
Proof. by destruct names. Qed.

Lemma resolves_cons h object name names :
  names ≠ [] →
  resolves h object (name :: names)
  = (attrs ← attrs_of h object; object ← attrs !! name; resolves h object names).
Proof. by destruct names. Qed.

Lemma resolves_Some_ref h object names l name :
  resolves h object names = Some (l, name) → ∃ l', object = VRef l'.
Proof.
  destruct names as [|name' [|name'' names]]; [done|..].
  - cbn. destruct object; try done. eauto.
  - rewrite resolves_cons by done.
    destruct (attrs_of h object) as [attrs|] eqn:Hattrs; [|done].
    apply attrs_of_Some in Hattrs as (l' & -> & _). eauto.
Qed.

Lemma resolves_snoc_name h object prefix last l name :
  resolves h object (prefix ++ [last]) = Some (l, name) → name = last.
Proof.
  revert object. induction prefix as [|name' prefix IH]; intros object.
  - cbn. destruct object; try done. by case_match; intros [= _ <-].
  - cbn [app]. rewrite resolves_cons by (by destruct prefix).
    destruct (attrs_of h object) as [attrs|]; [|done]. cbn.
    destruct (attrs !! name') as [object'|]; [|done]. cbn. apply IH.
Qed.

(** Writing an item of a dictionary does not disturb attribute lookups. *)
Lemma attrs_of_insert_Dict h l items items' object :
  h !! l = Some (Dict items) →
  attrs_of (<[l := Dict items']> h) object = attrs_of h object.
Proof.
  intros Hl. unfold attrs_of. destruct object as [| | | |l']; try done.
  destruct (decide (l = l')) as [<-|Hne].
  - by rewrite lookup_insert_eq, Hl.
  - by rewrite lookup_insert_ne.
Qed.

Lemma getattr_or_insert_Dict h l items items' object name default :
  h !! l = Some (Dict items) →
  getattr_or (<[l := Dict items']> h) object name default
  = getattr_or h object name default.
Proof. intros Hl. unfold getattr_or. by erewrite attrs_of_insert_Dict. Qed.

Lemma xgetattr_names_insert_Dict h l items items' object names default :
  h !! l = Some (Dict items) →
  xgetattr_names (<[l := Dict items']> h) object names default
  = xgetattr_names h object names default.
Proof.
  intros Hl. revert object.
  induction names as [|name names IH]; intros object; [done|].
  destruct names as [|name' names].
  - cbn. by erewrite getattr_or_insert_Dict.
  - rewrite !xgetattr_names_cons by done. cbn zeta.
    erewrite getattr_or_insert_Dict by done.
    destruct (is_None (getattr_or h object name VNone)); [done|]. apply IH.
Qed.

(** X13.  A value stored through a [DictRowInfo] is the value read back through
    it, whatever the name and the key. *)
Theorem DictRowInfo_set_then_get (title : string) (rows : list RowInfo)
    (name key : string) (obj value : val) (h h' : heap) :
  let self := DictRowInfo title rows name key in
  Row.set_value self obj value h = (Ok true, h') →
  Row.get_value self obj h' = (Ok value, h').
Proof.
  cbn [Row.set_value Row.get_value].
  unfold Row.DictRowInfo_set_value, Row.DictRowInfo_get_value.
  unfold mbind, M_bind, reads, setitem, dict_get, xgetattr.
  destruct (xgetattr_names h obj (split "." name) VNone) as [| | | |l] eqn:Hget;
    try done.
  destruct (h !! l) as [[attrs|items]|] eqn:Hl; try done.
  intros [= <-]. erewrite xgetattr_names_insert_Dict by done.
  rewrite Hget, lookup_insert_eq. by rewrite lookup_insert_eq.
Qed.

(** Writing an attribute does not disturb the lookup of any other name. *)
Lemma getattr_or_insert_other h l attrs last value object name default :
  h !! l = Some (Instance attrs) →
  name ≠ last →
  getattr_or (<[l := Instance (<[last := value]> attrs)]> h) object name default
  = getattr_or h object name default.
Proof.
  intros Hl Hname. unfold getattr_or, attrs_of.
  destruct object as [| | | |l']; try done.
  destruct (decide (l = l')) as [<-|Hne].
  - by rewrite lookup_insert_eq, Hl, lookup_insert_ne.
  - by rewrite lookup_insert_ne.
Qed.

Lemma xgetattr_names_after_write h l attrs value prefix last object :
  h !! l = Some (Instance attrs) →
  last ∉ prefix →
  resolves h object (prefix ++ [last]) = Some (l, last) →
  xgetattr_names (<[l := Instance (<[last := value]> attrs)]> h) object
    (prefix ++ [last]) VNone
  = value.
Proof.
  intros Hl. revert object.
  induction prefix as [|name prefix IH]; intros object Hlast.
  - cbn. destruct object as [| | | |l']; try done.
    case_match; [|done]. intros [= ->].
    unfold getattr_or, attrs_of. by rewrite !lookup_insert_eq.
  - apply not_elem_of_cons in Hlast as [Hne Hlast]. cbn [app].
    rewrite resolves_cons, xgetattr_names_cons by (by destruct prefix).
    cbn zeta. rewrite getattr_or_insert_other by done.
    unfold getattr_or.
    destruct (attrs_of h object) as [attrs'|]; [|done]. cbn.
    destruct (attrs' !! name) as [object'|]; [|done]. cbn.
    intros Hres. destruct (resolves_Some_ref _ _ _ _ _ Hres) as [l' ->].
    cbn [is_None]. by apply IH.
Qed.

(** X14.  A value written through a [HasTraitsRowInfo] is the value read back
    through it, provided the last name of the dotted path does not also
    occur earlier in the path. *)
Theorem HasTraitsRowInfo_set_then_get (title : string) (rows : list RowInfo)
    (name : string) (prefix : list string) (last : string) (obj value : val)
    (h h' : heap) :
  let self := HasTraitsRowInfo title rows name in
  split "." name = prefix ++ [last] →
  last ∉ prefix →
  Row.set_value self obj value h = (Ok true, h') →
  Row.get_value self obj h' = (Ok value, h').
Proof.
  cbn [Row.set_value Row.get_value].
  unfold Row.HasTraitsRowInfo_set_value, Row.HasTraitsRowInfo_get_value.
  intros Hsplit Hlast. destruct (truthy name); cbn [negb]; [|done].
  unfold xsetattr, xgetattr, mbind, M_bind, reads. rewrite Hsplit.
  destruct (xsetattr_names_outcome obj (prefix ++ [last]) value h)
    as [(l & attrs & name' & Hl & Hres & ->)|[e ->]]; [|done].
  intros [= <-].
  pose proof (resolves_snoc_name _ _ _ _ _ _ Hres) as ->.
  by rewrite xgetattr_names_after_write.
Qed.

(** The proviso is needed: on an object that is its own attribute [a], the
    value written at [a.a] replaces the link that the path goes through,
    and reading [a.a] back finds nothing. *)
Lemma set_then_get_through_overwritten_link :
  let h : heap := {[ 1%positive := Instance {[ "a" := VRef 1%positive ]} ]} in
  let self := HasTraitsRowInfo "Loop" [] "a.a" in
  ∃ h',
    Row.set_value self (VRef 1%positive) (VInt 7) h = (Ok true, h')
    ∧ Row.get_value self (VRef 1%positive) h' = (Ok VNone, h').
Proof. eexists. split; vm_compute; reflexivity. Qed.

(** X15.  In a row whose row info is a [HasTraitsRowInfo], the column indices
    that can be read are exactly those within the column count, counted
    from either end; any other raises IndexError.  A missing attribute is
    not an error. *)
Theorem get_value_column_bounds (self : ColumnDataModel) (row : list Z)
    (title : string) (rows : list RowInfo) (name : string)
    (index : Z) (column : list Z) (h : heap) :
  valid_path (row_info self) row (HasTraitsRowInfo title rows name) →
  let n := get_column_count self row in
  (- n ≤ index < n →
     ∃ obj,
       getitem (data self) index = Ok obj
       ∧ get_value self row (index :: column) h
         = (Ok (xgetattr h obj name VNone), h))
  ∧ (¬ (- n ≤ index < n) →
       get_value self row (index :: column) h
       = (Raise (IndexError "list index out of range"), h)).
Proof.
  intros Hvalid%row_info_object_valid n. unfold get_value. rewrite Hvalid.
  rewrite M_bind_lift_Ok. cbn [length Nat.eqb].
  rewrite column_0_cons, result_bind_Ok. split.
  - intros [obj Hobj]%getitem_in_range. exists obj. by rewrite Hobj.
  - intros Hout%getitem_out_of_range. by rewrite Hout.
Qed.

End Writes.

(** ** The default value type over a column data model *)

Section ValueTypeFacts.
Import ColumnModel ValueType.
Variable object_str : loc → string.

Lemma row_set_value_exn target obj value h e h' :
  Row.set_value target obj value h = (Raise e, h') →
  ∃ msg, e = AttributeError msg ∨ e = TypeError msg ∨ e = IndexError msg.
Proof.
  destruct target as [t rs name|t rs name key]; cbn [Row.set_value].
  - unfold Row.HasTraitsRowInfo_set_value.
    destruct (truthy name); cbn [negb]; [|done].
    unfold xsetattr, mbind, M_bind.
    destruct (resolves h obj (split "." name)) as [[l last]|] eqn:Hres.
    + destruct (xsetattr_names_resolved _ _ _ value _ _ Hres)
        as (attrs & _ & ->). done.
    + destruct (xsetattr_names_unresolved h obj (split "." name) value)
        as [msg ->]; [apply split_nonempty|done|].
      intros [= <- _]. eauto.
  - unfold Row.DictRowInfo_set_value, mbind, M_bind, reads, setitem.
    repeat case_match; intros; simplify_eq; eauto.
Qed.

Lemma set_value_exn model row column value h e h' :
  set_value model row column value h = (Raise e, h') →
  ∃ msg, e = AttributeError msg ∨ e = TypeError msg ∨ e = IndexError msg.
Proof.
  unfold set_value.
  destruct (_row_info_object model row) as [target|e'] eqn:Hrow.
  - rewrite M_bind_lift_Ok. destruct (length column =? 0)%nat; [done|].
    destruct (index ← column_0 column; getitem (data model) index)
      as [obj|e''] eqn:Hobj.
    + rewrite M_bind_lift_Ok. apply row_set_value_exn.
    + rewrite M_bind_lift_Raise. intros [= <- _].
      unfold mbind, result_bind in Hobj.
      destruct (column_0 column) as [index|e'] eqn:Hcol.
      * apply getitem_Raise in Hobj as ->. eauto.
      * simplify_eq. apply getitem_Raise in Hcol as ->. eauto.
  - rewrite M_bind_lift_Raise. intros [= <- _].
    apply row_info_from_Raise in Hrow as ->. eauto.
Qed.

Lemma set_editor_value_unfold model row column value h :
  set_editor_value model row column value h
  = match set_value model row column value h with
    | (Ok _, h') => (Ok (), h')
    | (Raise e, h') => (Raise e, h')
    end.
Proof. reflexivity. Qed.

(** X16.  [set_editor_value] gives no sign of a write that did not happen.  On
    the title column of a valid row it returns None and changes nothing,
    although the model's [set_value] returned False; and it never raises
    the DataViewSetError that its documentation names. *)
Theorem set_editor_value_silent (model : ColumnDataModel)
    (row column : list Z) (value : val) (h : heap) :
  (∀ target,
     valid_path (row_info model) row target →
     set_value model row [] value h = (Ok false, h)
     ∧ set_editor_value model row [] value h = (Ok (), h))
  ∧ (∀ msg, (set_editor_value model row column value h).1
            ≠ Raise (DataViewSetError msg)).
Proof.
  split.
  - intros target Hvalid%row_info_object_valid.
    rewrite set_editor_value_unfold. unfold set_value. by rewrite Hvalid.
  - intros msg. rewrite set_editor_value_unfold.
    destruct (set_value model row column value h) as [[b|e] h'] eqn:Hset;
      [done|].
    apply set_value_exn in Hset. by destruct Hset as [msg' [-> | [-> | ->]]].
Qed.

(** X17.  On the title column of a valid row the text is the title of the row
    info, and there is text exactly when the title is not empty. *)
Theorem title_column_text (model : ColumnDataModel) (row : list Z)
    (target : RowInfo) (h : heap) :
  valid_path (row_info model) row target →
  get_text object_str model row [] h = (Ok (title target), h)
  ∧ has_text object_str model row [] h
    = (Ok (negb (String.eqb (title target) EmptyString)), h).
Proof.
  intros Hvalid%row_info_object_valid.
  unfold has_text, get_text, get_value, mbind, M_bind, lift.
  by rewrite Hvalid.
Qed.

(** X18.  A cell whose attribute lookup finds nothing is not an empty cell: its
    text is the four letters of None, and [has_text] is True. *)
Theorem missing_attribute_text (model : ColumnDataModel) (row : list Z)
    (title : string) (rows : list RowInfo) (name : string)
    (index : Z) (column : list Z) (obj : val) (h : heap) :
  valid_path (row_info model) row (HasTraitsRowInfo title rows name) →
  getitem (data model) index = Ok obj →
  xgetattr h obj name VNone = VNone →
  get_text object_str model row (index :: column) h = (Ok "None", h)
  ∧ has_text object_str model row (index :: column) h = (Ok true, h).
Proof.
  intros Hvalid%row_info_object_valid Hobj Hnone.
  assert (get_value model row (index :: column) h = (Ok VNone, h)) as Hget.
  { unfold get_value. rewrite Hvalid, M_bind_lift_Ok.
    cbn [length Nat.eqb]. rewrite column_0_cons, result_bind_Ok, Hobj.
    rewrite M_bind_lift_Ok. cbn [Row.get_value].
    unfold Row.HasTraitsRowInfo_get_value, reads. by rewrite Hnone. }
  unfold has_text, get_text, mbind, M_bind. by rewrite Hget.
Qed.

End ValueTypeFacts.

(** ** The further properties at work on the example data *)

Section FurtherWitnesses.
Import QtSelector ColumnModel ValueType Example.
Local Open Scope list_scope.

Lemma ImportError_only_from_sip_witness :
  let st := {| qt_api := Some "pyqt"; sys_modules := ∅;
               trace := [Import "sip"] |} in
  module_body pyqt_without_sip (initial ∅)
  = (Raised (ImportError "No module named 'sip'"), st)
  ∧ "No module named 'sip'" = "No module named 'sip'"
  ∧ qt_api st = Some "pyqt"
  ∧ ("sip" ∉ importable pyqt_without_sip)
  ∧ ("sip" ∉ sys_modules st)
  ∧ last (trace st) = Some (Import "sip").
Proof.
  intros st.
  assert (module_body pyqt_without_sip (initial ∅)
          = (Raised (ImportError "No module named 'sip'"), st)) as Hbody
    by (vm_compute; reflexivity).
  split; [exact Hbody|].
  exact (ImportError_only_from_sip pyqt_without_sip ∅ _ st Hbody).
Defined.

Lemma normal_completion_choice_witness :
  let st := {| qt_api := Some "pyqt5"; sys_modules := {[ "PyQt5" ]};
               trace := [Import "PySide"; Import "PyQt5"] |} in
  module_body pyqt5_installed (initial ∅) = (Normal, st)
  ∧ "pyqt5" ∈ ["pyside"; "pyqt5"; "pyqt"].
Proof.
  intros st.
  assert (module_body pyqt5_installed (initial ∅) = (Normal, st)) as Hbody
    by (vm_compute; reflexivity).
  split; [exact Hbody|].
  exact (normal_completion_choice pyqt5_installed ∅ st Hbody).
Defined.

Lemma selection_stable_on_rerun_witness :
  let st := {| qt_api := Some "pyqt5"; sys_modules := {[ "PyQt5" ]};
               trace := [Import "PySide"; Import "PyQt5"] |} in
  select_qt_api pyqt5_installed (initial ∅) = (Normal, st)
  ∧ ∃ st',
      select_qt_api pyqt5_installed (initial (sys_modules st)) = (Normal, st')
      ∧ qt_api st' = qt_api st
      ∧ sys_modules st' = sys_modules st
      ∧ (qt_api st ≠ None → trace st' = []).
Proof.
  intros st.
  assert (select_qt_api pyqt5_installed (initial ∅) = (Normal, st)) as Hrun
    by (vm_compute; reflexivity).
  split; [exact Hrun|].
  exact (selection_stable_on_rerun pyqt5_installed ∅ Normal st Hrun).
Defined.

Lemma street_yielded : street ∈ __iter__ row_info.
Proof. vm_compute. repeat constructor. Qed.

Lemma iter_yields_addressable_rows_witness :
  street ∈ __iter__ row_info
  ∧ (∃ row, Forall (λ i, 0 ≤ i) row ∧ valid_path row_info row street)
  ∧ valid_path row_info [1; 0] street
  ∧ street ∈ __iter__ row_info.
Proof.
  split; [exact street_yielded|]. split.
  - exact (proj1 (iter_yields_addressable_rows row_info street) street_yielded).
  - split; [exact street_valid|].
    exact (proj2 (iter_yields_addressable_rows row_info street) [1; 0]
             street_valid).
Defined.

Lemma street_here :
  RowObjects.row_info_from row_objects street_ref [] = Ok street_ref.
Proof. reflexivity. Qed.


Lemma street_chain : chain row_objects [address_ref; people_ref] street_ref.
Proof.
  split; [|split; [|done]].
  - vm_compute. repeat constructor.
  - vm_compute. repeat constructor.
Qed.

Lemma bubble_addresses_origin_witness :
  chain row_objects [address_ref; people_ref] street_ref
  ∧ RowObjects.row_info_from row_objects street_ref [] = Ok street_ref
  ∧ ∃ row_index',
      bubble row_objects [address_ref; people_ref] street_ref
        (street_ref, "title", [])
      = Ok (street_ref, "title", row_index')
      ∧ RowObjects.row_info_from row_objects
          (default street_ref (last [address_ref; people_ref])) row_index'
        = Ok street_ref
      ∧ length row_index'
        = (length [address_ref; people_ref] + length (@nil Z))%nat.
Proof.
  split; [exact street_chain|]. split; [exact street_here|].
  exact (bubble_addresses_origin row_objects [address_ref; people_ref]
           street_ref street_ref "title" [] street_chain street_here).
Defined.

(** Rows are told apart as objects: of two rows that are equal field by
    field, the second is found at position 1, and a row info that is equal
    to them but is not one of the rows makes the observer raise. *)
Lemma equal_rows_told_apart :
  RowObjects.row_item_updated twins twins_ref second_twin
    (RowObjects.title_updated second_twin)
  = Ok (second_twin, "title", [1])
  ∧ RowObjects.row_item_updated twins twins_ref stranger
      (RowObjects.title_updated stranger)
    = Raise (ValueError "row is not in list").
Proof. split; vm_compute; reflexivity. Qed.

Lemma no_sixth_row :
  ∀ target, ¬ valid_path (ColumnModel.row_info model) [5] target.
Proof. intros target Hvalid%row_info_from_valid. discriminate Hvalid. Qed.

Lemma invalid_row_path_raises_IndexError_witness :
  (∀ target, ¬ valid_path (ColumnModel.row_info model) [5] target)
  ∧ ∃ msg,
      get_row_count model [5] = Raise (IndexError msg)
      ∧ can_have_children model [5] = Raise (IndexError msg)
      ∧ get_value model [5] [0] store = (Raise (IndexError msg), store)
      ∧ set_value model [5] [0] (VInt 1) store
        = (Raise (IndexError msg), store).
Proof.
  split; [exact no_sixth_row|].
  exact (invalid_row_path_raises_IndexError model [5] [0] (VInt 1) store
           no_sixth_row).
Defined.

Lemma address_valid : valid_path (ColumnModel.row_info model) [1] address_rows.
Proof. repeat econstructor. Qed.

Lemma subtree_model_witness :
  valid_path (ColumnModel.row_info model) [1] address_rows
  ∧ let sub := {| data := data model; ColumnModel.row_info := address_rows |} in
    _row_info_object model ([1] ++ [0]) = _row_info_object sub [0]
    ∧ get_row_count model ([1] ++ [0]) = get_row_count sub [0]
    ∧ get_value model ([1] ++ [0]) [0] store = get_value sub [0] [0] store
    ∧ set_value model ([1] ++ [0]) [0] (VStr "Elm Street") store
      = set_value sub [0] [0] (VStr "Elm Street") store.
Proof.
  split; [exact address_valid|].
  exact (subtree_model model [1] [0] [0] address_rows (VStr "Elm Street") store
           address_valid).
Defined.

Lemma street_written :
  set_value model [1; 0] [0] (VStr "Elm Street") store
  = (Ok true,
     <[address := Instance (<["street" := VStr "Elm Street"]>
                              {[ "street" := VStr "Main Street";
                                 "city" := VStr "Austin";
                                 "country" := VStr "USA" ]})]> store).
Proof. vm_compute. reflexivity. Qed.

Lemma set_value_changes_one_object_witness :
  let out := set_value model [1; 0] [0] (VStr "Elm Street") store in
  out.1 = Ok true
  ∧ (∃ l,
       (∃ attrs name,
          store !! l = Some (Instance attrs)
          ∧ out.2 = <[l := Instance (<[name := VStr "Elm Street"]> attrs)]> store)
       ∨ (∃ items key,
            store !! l = Some (Dict items)
            ∧ out.2 = <[l := Dict (<[key := VStr "Elm Street"]> items)]> store))
  ∧ dom out.2 = dom store.
Proof.
  intros out.
  assert (out.1 = Ok true) as Hout by (subst out; by rewrite street_written).
  split; [exact Hout|]. split.
  - exact (proj1 (proj2 (set_value_changes_one_object model [1; 0] [0]
                           (VStr "Elm Street") store)) Hout).
  - exact (proj2 (proj2 (set_value_changes_one_object model [1; 0] [0]
                           (VStr "Elm Street") store))).
Defined.

Lemma team_written :
  Row.set_value team_row (VRef person) (VStr "red") tagged_store
  = (Ok true, <[tags := Dict {[ "team" := VStr "red" ]}]> tagged_store).
Proof. vm_compute. reflexivity. Qed.

Lemma DictRowInfo_set_then_get_witness :
  let h' := <[tags := Dict {[ "team" := VStr "red" ]}]> tagged_store in
  Row.set_value team_row (VRef person) (VStr "red") tagged_store = (Ok true, h')
  ∧ Row.get_value team_row (VRef person) h' = (Ok (VStr "red"), h').
Proof.
  intros h'. split; [exact team_written|].
  exact (DictRowInfo_set_then_get "Team" [] "tags" "team" (VRef person)
           (VStr "red") tagged_store h' team_written).
Defined.

Lemma street_written_row :
  Row.set_value street (VRef person) (VStr "Elm Street") store
  = (Ok true,
     <[address := Instance (<["street" := VStr "Elm Street"]>
                              {[ "street" := VStr "Main Street";
                                 "city" := VStr "Austin";
                                 "country" := VStr "USA" ]})]> store).
Proof. vm_compute. reflexivity. Qed.

Lemma street_not_in_prefix : "street" ∉ ["address"].
Proof. rewrite not_elem_of_cons. split; [done|apply not_elem_of_nil]. Qed.

Lemma HasTraitsRowInfo_set_then_get_witness :
  let h' := <[address := Instance (<["street" := VStr "Elm Street"]>
                                     {[ "street" := VStr "Main Street";
                                        "city" := VStr "Austin";
                                        "country" := VStr "USA" ]})]> store in
  split "." "address.street" = ["address"] ++ ["street"]
  ∧ ("street" ∉ ["address"])
  ∧ Row.set_value street (VRef person) (VStr "Elm Street") store = (Ok true, h')
  ∧ Row.get_value street (VRef person) h' = (Ok (VStr "Elm Street"), h').
Proof.
  intros h'.
  assert (split "." "address.street" = ["address"] ++ ["street"]) as Hsplit
    by reflexivity.
  split; [exact Hsplit|]. split; [exact street_not_in_prefix|].
  split; [exact street_written_row|].
  exact (HasTraitsRowInfo_set_then_get "Street" [] "address.street" ["address"]
           "street" (VRef person) (VStr "Elm Street") store h' Hsplit
           street_not_in_prefix street_written_row).
Defined.

Lemma last_column_in_range :
  - get_column_count model [1; 0] ≤ -1 < get_column_count model [1; 0].
Proof. unfold get_column_count. cbn. lia. Qed.

Lemma get_value_column_bounds_witness :
  valid_path (ColumnModel.row_info model) [1; 0] street
  ∧ - get_column_count model [1; 0] ≤ -1 < get_column_count model [1; 0]
  ∧ ∃ obj,
      getitem (data model) (-1) = Ok obj
      ∧ get_value model [1; 0] [-1] store
        = (Ok (xgetattr store obj "address.street" VNone), store).
Proof.
  split; [exact street_valid|]. split; [exact last_column_in_range|].
  exact (proj1 (get_value_column_bounds model [1; 0] "Street" []
                  "address.street" (-1) [] store street_valid)
           last_column_in_range).
Defined.

Lemma set_editor_value_silent_witness :
  valid_path (ColumnModel.row_info model) [1; 0] street
  ∧ set_value model [1; 0] [] (VStr "Elm Street") store = (Ok false, store)
  ∧ set_editor_value model [1; 0] [] (VStr "Elm Street") store = (Ok (), store).
Proof.
  split; [exact street_valid|].
  exact (proj1 (set_editor_value_silent model [1; 0] [] (VStr "Elm Street")
                  store) street street_valid).
Defined.

Lemma title_column_text_witness :
  valid_path (ColumnModel.row_info model) [1; 0] street
  ∧ get_text (λ _, "object") model [1; 0] [] store = (Ok "Street", store)
  ∧ has_text (λ _, "object") model [1; 0] [] store = (Ok true, store).
Proof.
  split; [exact street_valid|].
  exact (title_column_text (λ _, "object") model [1; 0] street store
           street_valid).
Defined.

Lemma age_valid :
  valid_path (ColumnModel.row_info bare_model) [0] (HasTraitsRowInfo "Age" [] "age").
Proof. repeat econstructor. Qed.

Lemma missing_attribute_text_witness :
  valid_path (ColumnModel.row_info bare_model) [0]
    (HasTraitsRowInfo "Age" [] "age")
  ∧ getitem (data bare_model) 0 = Ok (VRef bare)
  ∧ xgetattr bare_store (VRef bare) "age" VNone = VNone
  ∧ get_text (λ _, "object") bare_model [0] [0] bare_store
    = (Ok "None", bare_store)
  ∧ has_text (λ _, "object") bare_model [0] [0] bare_store
    = (Ok true, bare_store).
Proof.
  assert (getitem (data bare_model) 0 = Ok (VRef bare)) as Hobj by reflexivity.
  assert (xgetattr bare_store (VRef bare) "age" VNone = VNone) as Hnone
    by (vm_compute; reflexivity).
  split; [exact age_valid|]. split; [exact Hobj|]. split; [exact Hnone|].
  exact (missing_attribute_text (λ _, "object") bare_model [0] "Age" [] "age"
           0 [] (VRef bare) bare_store age_valid Hobj Hnone).
Defined.

End FurtherWitnesses.
